(** * zhsc-compiler: the compiler driver, the AST node classes and the
    command line

    A shallow embedding of [src/compiler.py], [src/ast_nodes.py] and the
    [compile] and [check] commands of [src/cli.py].

    - Python objects with attributes are records; the [__init__] of a class
      is an [init] function whose optional keyword arguments are [option]s
      ([None] = the argument was left out, so the Python default applies).
    - [ChineseSolidityCompiler] methods mutate [self] and print to the
      terminal: they are computations in a small state-and-exception monad
      over the pair (compiler object, outside world).
    - The lexer, the parser and the Solidity generator live in packages that
      [compiler.py] only imports ([lexer.chinese_lexer],
      [parser.chinese_parser], [codegen.solidity_generator]); the driver is
      therefore stated over arbitrary stage functions.
    - [open] and [os.makedirs] act on a map from paths to files and
      directories and raise the [OSError] a POSIX system raises, with its
      text.
    - [console.print] of the terminal library records what it was given;
      for a string it first looks for markup tags the way [rich.markup]
      does and raises MarkupError for a closing tag that closes nothing.
      The two parts of the renderer that go beyond tags - the spelling of
      style names and the evaluation of the parameters of a meta tag - are
      taken as given. *)

From Stdlib Require Import ZArith Ascii String.
From stdpp Require Import base strings list gmap pretty.

Local Open Scope string_scope.
Set Warnings "-register-all".

(** ** Python exceptions *)

(** The exception classes the driver mentions, with the builtin ones it
    catches by name.  [UserError n] stands for any other class derived from
    [Exception] (such as the error classes of the imported stage packages).
    Interpreter signals that derive from [BaseException] only
    (KeyboardInterrupt, SystemExit) are not failures of a stage and are not
    represented. *)
Inductive ExcClass :=
  | Exception
  | OSError
  | FileNotFoundError
  | FileExistsError
  | IsADirectoryError
  | NotADirectoryError
  | ValueError
  | UserError (name : string)
  | CompilerError
  | LexerError
  | ParserError
  | CodeGenError.

#[global] Instance ExcClass_eq_dec : EqDecision ExcClass.
Proof. solve_decision. Defined.

(** The direct base class of each class ([class LexerError(CompilerError)]). *)
Definition base_class (c : ExcClass) : option ExcClass :=
  match c with
  | Exception => None
  | OSError => Some Exception
  | FileNotFoundError => Some OSError
  | FileExistsError => Some OSError
  | IsADirectoryError => Some OSError
  | NotADirectoryError => Some OSError
  | ValueError => Some Exception
  | UserError _ => Some Exception
  | CompilerError => Some Exception
  | LexerError => Some CompilerError
  | ParserError => Some CompilerError
  | CodeGenError => Some CompilerError
  end.

(** [issubclass c d]: climb the base classes of [c] looking for [d].  The
    hierarchy above is three levels deep. *)
Fixpoint climbs (fuel : nat) (c d : ExcClass) : bool :=
  if decide (c = d) then true
  else match fuel with
       | O => false
       | S k => match base_class c with
                | Some b => climbs k b d
                | None => false
                end
       end.

Definition issubclass (c d : ExcClass) : bool := climbs 3 c d.

(** An exception object: its class and the text [str(e)] yields. *)
Record exn := mk_exn { exc_class : ExcClass; exc_text : string }.

Definition isinstance (e : exn) (c : ExcClass) : bool :=
  issubclass (exc_class e) c.

(** ** Results and the state-and-exception monad *)

Inductive Res (A : Type) :=
  | Ok (a : A)
  | Raise (e : exn).
Arguments Ok {A} a.
Arguments Raise {A} e.

Definition M (St A : Type) : Type := St -> Res A * St.

Definition ret {St A} (a : A) : M St A := fun s => (Ok a, s).

Definition bind {St A B} (m : M St A) (k : A -> M St B) : M St B :=
  fun s => match m s with
           | (Ok a, s') => k a s'
           | (Raise e, s') => (Raise e, s')
           end.

Definition raise {St A} (e : exn) : M St A := fun s => (Raise e, s).

Definition gets {St A} (f : St -> A) : M St A := fun s => (Ok (f s), s).

Definition modify {St} (f : St -> St) : M St unit := fun s => (Ok tt, f s).

(** Lift a pure, possibly failing call. *)
Definition lift {St A} (r : Res A) : M St A := fun s => (r, s).

(** [try: body except c1: h1 except c2: h2 ...]: the first clause whose
    class the raised exception is an instance of handles it; what the body
    did to the state before raising stays done; an exception raised by a
    handler is not offered to the other clauses. *)
Fixpoint select_handler {St A} (e : exn)
    (clauses : list (ExcClass * (exn -> M St A))) : M St A :=
  match clauses with
  | [] => raise e
  | (c, h) :: rest => if isinstance e c then h e else select_handler e rest
  end.

Definition try_except {St A} (body : M St A)
    (clauses : list (ExcClass * (exn -> M St A))) : M St A :=
  fun s => match body s with
           | (Ok a, s') => (Ok a, s')
           | (Raise e, s') => select_handler e clauses s'
           end.

Declare Scope py_scope.
Delimit Scope py_scope with py.
Notation "x <- m ;; k" := (bind m (fun x => k))
  (at level 100, m at next level, right associativity) : py_scope.
Notation "m ;;; k" := (bind m (fun _ => k))
  (at level 100, right associativity) : py_scope.

(** ** ast_nodes.py *)

Inductive NodeType :=
  | PROGRAM | CONTRACT | FUNCTION | CONSTRUCTOR | STATE_VARIABLE | EVENT
  | PARAMETER | BLOCK | RETURN_STATEMENT | IF_STATEMENT | FOR_STATEMENT
  | WHILE_STATEMENT | EXPRESSION_STATEMENT | VARIABLE_DECLARATION
  | ASSIGNMENT | BINARY_EXPRESSION | UNARY_EXPRESSION | CALL_EXPRESSION
  | MEMBER_EXPRESSION | INDEX_EXPRESSION | IDENTIFIER | LITERAL.

Inductive Visibility := PUBLIC | PRIVATE | INTERNAL | EXTERNAL.

Inductive Mutability := PURE | VIEW | PAYABLE | NONE.

(** The [.value] of each enum member. *)
Definition Visibility_value (v : Visibility) : string :=
  match v with
  | PUBLIC => "public" | PRIVATE => "private"
  | INTERNAL => "internal" | EXTERNAL => "external"
  end.

Definition Mutability_value (m : Mutability) : string :=
  match m with
  | PURE => "pure" | VIEW => "view" | PAYABLE => "payable" | NONE => "none"
  end.

(** [ASTNode]: what every node carries. *)
Module ASTNode.
Record t := mk { node_type : NodeType; line : Z; column : Z }.
Definition init (node_type : NodeType) (line column : option Z) : t :=
  mk node_type (default 0%Z line) (default 0%Z column).
End ASTNode.

(** A literal's [value] is whatever Python object the parser stored. *)
Inductive PyValue :=
  | PyNone
  | PyInt (n : Z)
  | PyStr (s : string)
  | PyBool (b : bool).

(** Expressions, statements and blocks.  Attributes whose default is
    [None] are [option]s. *)
Inductive Expression :=
  | Assignment (base : ASTNode.t) (left : option Expression)
      (operator : string) (right : option Expression)
  | BinaryExpression (base : ASTNode.t) (left : option Expression)
      (operator : string) (right : option Expression)
  | UnaryExpression (base : ASTNode.t) (operator : string)
      (operand : option Expression) (prefix : bool)
  | CallExpression (base : ASTNode.t) (callee : option Expression)
      (arguments : list Expression)
  | MemberExpression (base : ASTNode.t) (object : option Expression)
      (property : string)
  | IndexExpression (base : ASTNode.t) (object : option Expression)
      (index : option Expression)
  | Identifier (base : ASTNode.t) (name : string)
  | Literal (base : ASTNode.t) (value : PyValue) (literal_type : string).

Inductive Statement :=
  | ReturnStatement (base : ASTNode.t) (value : option Expression)
  | IfStatement (base : ASTNode.t) (condition : option Expression)
      (then_block : option Block) (else_block : option ElseBranch)
  | ForStatement (base : ASTNode.t) (init : option Statement)
      (condition : option Expression) (update : option Expression)
      (body : option Block)
  | WhileStatement (base : ASTNode.t) (condition : option Expression)
      (body : option Block)
  | ExpressionStatement (base : ASTNode.t) (expression : option Expression)
  | VariableDeclaration (base : ASTNode.t) (name : string)
      (var_type : string) (initial_value : option Expression)
with Block :=
  | mkBlock (base : ASTNode.t) (statements : list Statement)
with ElseBranch :=
  | ElseBlock (b : Block)
  | ElseIf (s : Statement).

(** The [__init__] of each expression and statement class. *)
Definition Assignment_init (left : option Expression)
    (operator : option string) (right : option Expression)
    (line column : option Z) : Expression :=
  Assignment (ASTNode.init ASSIGNMENT line column) left
    (default "=" operator) right.

Definition BinaryExpression_init (left : option Expression)
    (operator : option string) (right : option Expression)
    (line column : option Z) : Expression :=
  BinaryExpression (ASTNode.init BINARY_EXPRESSION line column) left
    (default EmptyString operator) right.

Definition UnaryExpression_init (operator : option string)
    (operand : option Expression) (prefix : option bool)
    (line column : option Z) : Expression :=
  UnaryExpression (ASTNode.init UNARY_EXPRESSION line column)
    (default EmptyString operator) operand (default true prefix).

Definition CallExpression_init (callee : option Expression)
    (arguments : option (list Expression))
    (line column : option Z) : Expression :=
  CallExpression (ASTNode.init CALL_EXPRESSION line column) callee
    (default [] arguments).

Definition MemberExpression_init (object : option Expression)
    (property : option string) (line column : option Z) : Expression :=
  MemberExpression (ASTNode.init MEMBER_EXPRESSION line column) object
    (default EmptyString property).

Definition IndexExpression_init (object index : option Expression)
    (line column : option Z) : Expression :=
  IndexExpression (ASTNode.init INDEX_EXPRESSION line column) object index.

Definition Identifier_init (name : option string)
    (line column : option Z) : Expression :=
  Identifier (ASTNode.init IDENTIFIER line column) (default EmptyString name).

Definition Literal_init (value : option PyValue)
    (literal_type : option string) (line column : option Z) : Expression :=
  Literal (ASTNode.init LITERAL line column) (default PyNone value)
    (default EmptyString literal_type).

Definition ReturnStatement_init (value : option Expression)
    (line column : option Z) : Statement :=
  ReturnStatement (ASTNode.init RETURN_STATEMENT line column) value.

Definition IfStatement_init (condition : option Expression)
    (then_block : option Block) (else_block : option ElseBranch)
    (line column : option Z) : Statement :=
  IfStatement (ASTNode.init IF_STATEMENT line column) condition then_block
    else_block.

Definition ForStatement_init (init : option Statement)
    (condition update : option Expression) (body : option Block)
    (line column : option Z) : Statement :=
  ForStatement (ASTNode.init FOR_STATEMENT line column) init condition
    update body.

Definition WhileStatement_init (condition : option Expression)
    (body : option Block) (line column : option Z) : Statement :=
  WhileStatement (ASTNode.init WHILE_STATEMENT line column) condition body.

Definition ExpressionStatement_init (expression : option Expression)
    (line column : option Z) : Statement :=
  ExpressionStatement (ASTNode.init EXPRESSION_STATEMENT line column)
    expression.

Definition VariableDeclaration_init (name var_type : option string)
    (initial_value : option Expression) (line column : option Z)
    : Statement :=
  VariableDeclaration (ASTNode.init VARIABLE_DECLARATION line column)
    (default EmptyString name) (default EmptyString var_type) initial_value.

Definition Block_init (statements : option (list Statement))
    (line column : option Z) : Block :=
  mkBlock (ASTNode.init BLOCK line column) (default [] statements).

(** The declaration-level classes, one module per class so that the
    attribute names stay those of the source ([ParameterNode] is the class
    the source calls Parameter). *)
Module ParameterNode.
Record t := mk { base : ASTNode.t; name : string; param_type : string }.
Definition init (name param_type : option string)
    (line column : option Z) : t :=
  mk (ASTNode.init PARAMETER line column) (default EmptyString name)
    (default EmptyString param_type).
End ParameterNode.

Module Event.
Record t := mk { base : ASTNode.t; name : string;
                 parameters : list ParameterNode.t }.
Definition init (name : option string)
    (parameters : option (list ParameterNode.t))
    (line column : option Z) : t :=
  mk (ASTNode.init EVENT line column) (default EmptyString name)
    (default [] parameters).
End Event.

Module Constructor.
Record t := mk { base : ASTNode.t; parameters : list ParameterNode.t;
                 body : option Block }.
Definition init (parameters : option (list ParameterNode.t))
    (body : option Block) (line column : option Z) : t :=
  mk (ASTNode.init CONSTRUCTOR line column) (default [] parameters) body.
End Constructor.

Module Function.
Record t := mk {
  base : ASTNode.t;
  name : string;
  parameters : list ParameterNode.t;
  return_type : option string;
  visibility : Visibility;
  mutability : Mutability;
  body : option Block }.
Definition init (name : option string)
    (parameters : option (list ParameterNode.t))
    (return_type : option string) (visibility : option Visibility)
    (mutability : option Mutability) (body : option Block)
    (line column : option Z) : t :=
  mk (ASTNode.init FUNCTION line column) (default EmptyString name)
    (default [] parameters) return_type (default PUBLIC visibility)
    (default NONE mutability) body.
End Function.

Module StateVariable.
Record t := mk {
  base : ASTNode.t;
  name : string;
  var_type : string;
  visibility : Visibility;
  initial_value : option Expression }.
Definition init (name var_type : option string)
    (visibility : option Visibility) (initial_value : option Expression)
    (line column : option Z) : t :=
  mk (ASTNode.init STATE_VARIABLE line column) (default EmptyString name)
    (default EmptyString var_type) (default PRIVATE visibility)
    initial_value.
End StateVariable.

Module Contract.
Record t := mk {
  base : ASTNode.t;
  name : string;
  state_variables : list StateVariable.t;
  functions : list Function.t;
  events : list Event.t;
  constructor : option Constructor.t }.
Definition init (name : option string)
    (state_variables : option (list StateVariable.t))
    (functions : option (list Function.t))
    (events : option (list Event.t))
    (constructor : option Constructor.t)
    (line column : option Z) : t :=
  mk (ASTNode.init CONTRACT line column) (default EmptyString name)
    (default [] state_variables) (default [] functions)
    (default [] events) constructor.

(** Every constructor node a contract holds, as a list. *)
Definition constructors (c : t) : list Constructor.t :=
  match constructor c with
  | Some k => [k]
  | None => []
  end.
End Contract.

Module Program.
Record t := mk { base : ASTNode.t; contracts : list Contract.t }.
Definition init (contracts : option (list Contract.t))
    (line column : option Z) : t :=
  mk (ASTNode.init PROGRAM line column) (default [] contracts).
End Program.

(** ** The world outside the compiler object *)

(** What a path names on disk.  The map is a snapshot of the file system
    by path.  Paths are taken as written and in plain form - names
    separated by single slashes, none of them "." or "..", no slash at the
    end of a path that is looked up - and there are no links, permissions
    or name-length limits; a [File] holds its decoded text. *)
Inductive node :=
  | File (text : string)
  | Dir.

(** One entry per call of an imported stage function, with its argument;
    the list records in which order the driver called them. *)
Inductive StageCall (Token : Type) :=
  | CallTokenize (source : string)
  | CallParse (tokens : list Token)
  | CallGenerate (ast : option Program.t).
Arguments CallTokenize {Token} source.
Arguments CallParse {Token} tokens.
Arguments CallGenerate {Token} ast.

Record World (Token : Type) := mkWorld {
  stdout : list string;          (* lines written by [print] *)
  fs : gmap string node;         (* the file system *)
  calls : list (StageCall Token) (* stage calls made so far *)
}.
Arguments mkWorld {Token} stdout fs calls.
Arguments stdout {Token} _.
Arguments fs {Token} _.
Arguments calls {Token} _.

Definition slash : ascii := "/"%char.

Fixpoint drop_while {A} (f : A -> bool) (l : list A) : list A :=
  match l with
  | [] => []
  | x :: r => if f x then drop_while f r else l
  end.

(** [os.path.dirname] (posixpath): everything up to the last slash, then
    without its trailing slashes unless it consists of slashes only. *)
Definition dirname (p : string) : string :=
  let rhead := drop_while (fun c => negb (Ascii.eqb c slash))
                 (reverse (list_ascii_of_string p)) in
  let stripped := drop_while (fun c => Ascii.eqb c slash) rhead in
  string_of_list_ascii
    (reverse (match stripped with [] => rhead | _ => stripped end)).

Definition ends_with_slash (p : string) : bool :=
  match reverse (list_ascii_of_string p) with
  | c :: _ => Ascii.eqb c slash
  | [] => false
  end.

(** [repr] of a [str], as it appears in the text of an [OSError]: the
    quotes are double when the string has a single quote and no double
    quote; a backslash, the quote in use and control characters are
    escaped.  Non-ASCII characters are kept as they are (Python does so for
    the printable ones). *)
Definition squote : ascii := "'"%char.
Definition dquote : ascii := "034"%char.
Definition backslash : ascii := "\"%char.

Definition hex_digit (n : nat) : ascii :=
  List.nth n (list_ascii_of_string "0123456789abcdef") "0"%char.

Definition repr_char (q c : ascii) : list ascii :=
  let n := nat_of_ascii c in
  if Ascii.eqb c backslash then [backslash; backslash]
  else if Ascii.eqb c q then [backslash; q]
  else if (n =? 10)%nat then [backslash; "n"%char]
  else if (n =? 13)%nat then [backslash; "r"%char]
  else if (n =? 9)%nat then [backslash; "t"%char]
  else if ((n <? 32) || (n =? 127))%nat
       then [backslash; "x"%char; hex_digit (n / 16); hex_digit (n mod 16)]
  else [c].

Definition py_repr (s : string) : string :=
  let cs := list_ascii_of_string s in
  let q := if existsb (Ascii.eqb squote) cs
              && negb (existsb (Ascii.eqb dquote) cs)
           then dquote else squote in
  string_of_list_ascii (q :: flat_map (repr_char q) cs ++ [q]).

(** Python refuses a path with a NUL character before asking the system. *)
Definition has_nul (p : string) : bool :=
  existsb (Ascii.eqb zero) (list_ascii_of_string p).

(** The ancestors of a path, shortest first: what stands before each run
    of slashes (["a"; "a/b"] for "a/b/c"). *)
Fixpoint ancestors_go (racc rest : list ascii) : list string :=
  match rest with
  | [] => []
  | c :: rest' =>
      let here :=
        match racc with
        | c0 :: _ =>
            if Ascii.eqb c slash && negb (Ascii.eqb c0 slash)
            then [string_of_list_ascii (reverse racc)] else []
        | [] => []
        end in
      here ++ ancestors_go (c :: racc) rest'
  end.

Definition ancestors (p : string) : list string :=
  ancestors_go [] (list_ascii_of_string p).

Definition is_file (files : gmap string node) (p : string) : bool :=
  match files !! p with Some (File _) => true | _ => false end.

Definition is_dir (files : gmap string node) (p : string) : bool :=
  match files !! p with Some Dir => true | _ => false end.

Definition path_exists (files : gmap string node) (p : string) : bool :=
  match files !! p with Some _ => true | None => false end.

(** [open(path, 'r', encoding='utf-8').read()].  A path the map holds is
    read or refused as what it is; a path it does not hold is refused for
    a NUL character, for a regular file among its ancestors, or as
    missing. *)
Definition open_read (files : gmap string node) (path : string)
    : Res string :=
  match files !! path with
  | Some (File text) => Ok text
  | Some Dir =>
      Raise (mk_exn IsADirectoryError
               ("[Errno 21] Is a directory: " +:+ py_repr path))
  | None =>
      if has_nul path then
        Raise (mk_exn ValueError "embedded null byte")
      else if existsb (is_file files) (ancestors path) then
        Raise (mk_exn NotADirectoryError
                 ("[Errno 20] Not a directory: " +:+ py_repr path))
      else
        Raise (mk_exn FileNotFoundError
                 ("[Errno 2] No such file or directory: " +:+ py_repr path))
  end.

(** [os.mkdir(name)], [parent] being the directory part of [name] when it
    has one. *)
Definition os_mkdir (files : gmap string node) (parent : option string)
    (name : string) : Res (gmap string node) :=
  match files !! name with
  | Some _ =>
      Raise (mk_exn FileExistsError
               ("[Errno 17] File exists: " +:+ py_repr name))
  | None =>
      match parent with
      | None => Ok (<[name := Dir]> files)
      | Some h =>
          match files !! h with
          | Some Dir => Ok (<[name := Dir]> files)
          | Some (File _) =>
              Raise (mk_exn NotADirectoryError
                       ("[Errno 20] Not a directory: " +:+ py_repr name))
          | None =>
              Raise (mk_exn FileNotFoundError
                       ("[Errno 2] No such file or directory: "
                        +:+ py_repr name))
          end
      end
  end.

(** The recursion of [os.makedirs(name, exist_ok=True)] on a path and its
    ancestors, longest first: a missing parent is made first (a
    FileExistsError from there is passed over), then the path itself, and
    an [OSError] of [mkdir] is passed over when the path is a directory. *)
Fixpoint makedirs_go (rchain : list string) (files : gmap string node)
    : Res (gmap string node) :=
  match rchain with
  | [] => Ok files
  | name :: heads =>
      let made :=
        match heads with
        | h :: _ =>
            if path_exists files h then Ok files
            else match makedirs_go heads files with
                 | Raise e =>
                     if isinstance e FileExistsError then Ok files
                     else Raise e
                 | Ok files1 => Ok files1
                 end
        | [] => Ok files
        end in
      match made with
      | Raise e => Raise e
      | Ok files1 =>
          match os_mkdir files1 (head heads) name with
          | Ok files2 => Ok files2
          | Raise e =>
              if isinstance e OSError && is_dir files1 name then Ok files1
              else Raise e
          end
      end
  end.

Definition all_slashes (p : string) : bool :=
  forallb (Ascii.eqb slash) (list_ascii_of_string p).

(** [os.makedirs(d, exist_ok=True)] for a [d] that [os.path.dirname]
    returned (no trailing slash unless it is the root): the empty path is
    refused, the root exists, otherwise the missing directories on the way
    to [d] are made. *)
Definition os_makedirs (files : gmap string node) (d : string)
    : Res (gmap string node) :=
  if String.eqb d EmptyString then
    Raise (mk_exn FileNotFoundError
             "[Errno 2] No such file or directory: ''")
  else if has_nul d then Raise (mk_exn ValueError "embedded null byte")
  else if all_slashes d then Ok files
  else makedirs_go (reverse (ancestors d ++ [d])) files.

(** [open(path, 'w', encoding='utf-8').write(text)].  The driver calls it
    right after [os.makedirs] on the directory part has returned, so the
    directory part is not examined again. *)
Definition open_write (files : gmap string node) (path text : string)
    : Res (gmap string node) :=
  if has_nul path then Raise (mk_exn ValueError "embedded null byte")
  else if ends_with_slash path then
    Raise (mk_exn IsADirectoryError
             ("[Errno 21] Is a directory: " +:+ py_repr path))
  else match files !! path with
       | Some Dir =>
           Raise (mk_exn IsADirectoryError
                    ("[Errno 21] Is a directory: " +:+ py_repr path))
       | _ => Ok (<[path := File text]> files)
       end.

(** Between two snapshots the file system only grew by directories: every
    path is as before or was missing and is now a directory. *)
Definition adds_dirs (before after : gmap string node) : Prop :=
  forall p, after !! p = before !! p \/
            (before !! p = None /\ after !! p = Some Dir).

(** Python truthiness of an [Optional[str]]: [None] and the empty string
    are false. *)
Definition truthy (o : option string) : bool :=
  match o with
  | Some s => negb (String.eqb s EmptyString)
  | None => false
  end.

(** ** compiler.py: class ChineseSolidityCompiler *)

Module ChineseSolidityCompiler.

(** The attributes of [self]. *)
Record t (Token : Type) := mk {
  verbose : bool;
  source_code : string;
  tokens : list Token;
  ast : option Program.t;
  solidity_code : string
}.
Arguments mk {Token} verbose source_code tokens ast solidity_code.
Arguments verbose {Token} _.
Arguments source_code {Token} _.
Arguments tokens {Token} _.
Arguments ast {Token} _.
Arguments solidity_code {Token} _.

Section Methods.

Context {Token : Type}.

(** The three imported stage functions.  Each returns its result or raises
    an exception; the generator is handed whatever [self.ast] holds. *)
Variable tokenize : string -> Res (list Token).
Variable parse : list Token -> Res Program.t.
Variable generate_solidity : option Program.t -> Res string.

(** A method runs on the pair ([self], world). *)
Definition St : Type := t Token * World Token.

Definition __init__ (verbose : option bool) : t Token :=
  mk (default false verbose) EmptyString [] None EmptyString.

(** Attribute assignments [self.x = v]. *)
Definition set_source_code (v : string) : M St unit :=
  modify (fun '(self, w) =>
    (mk (verbose self) v (tokens self) (ast self) (solidity_code self), w)).

Definition set_tokens (v : list Token) : M St unit :=
  modify (fun '(self, w) =>
    (mk (verbose self) (source_code self) v (ast self) (solidity_code self),
     w)).

Definition set_ast (v : option Program.t) : M St unit :=
  modify (fun '(self, w) =>
    (mk (verbose self) (source_code self) (tokens self) v
        (solidity_code self), w)).

Definition set_solidity_code (v : string) : M St unit :=
  modify (fun '(self, w) =>
    (mk (verbose self) (source_code self) (tokens self) (ast self) v, w)).

(** [print(line)]. *)
Definition print (line : string) : M St unit :=
  modify (fun '(self, w) =>
    (self, mkWorld (stdout w ++ [line]) (fs w) (calls w))).

Definition record_call (c : StageCall Token) : M St unit :=
  modify (fun '(self, w) =>
    (self, mkWorld (stdout w) (fs w) (calls w ++ [c]))).

(** Calls of the imported functions. *)
Definition call_tokenize (source : string) : M St (list Token) :=
  (record_call (CallTokenize source) ;;; lift (tokenize source))%py.

Definition call_parse (toks : list Token) : M St Program.t :=
  (record_call (CallParse toks) ;;; lift (parse toks))%py.

Definition call_generate_solidity (a : option Program.t) : M St string :=
  (record_call (CallGenerate a) ;;; lift (generate_solidity a))%py.

(** File access through the world's file system. *)
Definition read_file (path : string) : M St string :=
  fun '(self, w) => (open_read (fs w) path, (self, w)).

Definition update_fs (op : gmap string node -> Res (gmap string node))
    : M St unit :=
  fun '(self, w) =>
    match op (fs w) with
    | Ok files => (Ok tt, (self, mkWorld (stdout w) files (calls w)))
    | Raise e => (Raise e, (self, w))
    end.

Definition log (message : string) : M St unit :=
  (v <- gets (fun s : St => verbose (fst s)) ;;
   if v : bool then print ("[编译器] " +:+ message) else ret tt)%py.

Definition compile (source_code : string) : M St string :=
  (set_source_code source_code ;;;
   (* lexing *)
   log "开始词法分析..." ;;;
   try_except
     (toks <- call_tokenize source_code ;;
      set_tokens toks ;;;
      n <- gets (fun s : St => length (tokens (fst s))) ;;
      log ("词法分析完成，共 " +:+ pretty n +:+ " 个Token"))
     [(Exception, fun e =>
         raise (mk_exn LexerError ("词法分析失败: " +:+ exc_text e)))] ;;;
   (* parsing *)
   log "开始语法分析..." ;;;
   try_except
     (toks <- gets (fun s : St => tokens (fst s)) ;;
      a <- call_parse toks ;;
      set_ast (Some a) ;;;
      log "语法分析完成")
     [(Exception, fun e =>
         raise (mk_exn ParserError ("语法分析失败: " +:+ exc_text e)))] ;;;
   (* code generation *)
   log "开始代码生成..." ;;;
   try_except
     (a <- gets (fun s : St => ast (fst s)) ;;
      code <- call_generate_solidity a ;;
      set_solidity_code code ;;;
      log "代码生成完成")
     [(Exception, fun e =>
         raise (mk_exn CodeGenError ("代码生成失败: " +:+ exc_text e)))] ;;;
   gets (fun s : St => solidity_code (fst s)))%py.

Definition compile_file (input_file : string) (output_file : option string)
    : M St string :=
  (log ("读取源文件: " +:+ input_file) ;;;
   (* read the source *)
   try_except
     (text <- read_file input_file ;;
      set_source_code text)
     [(FileNotFoundError, fun _ =>
         raise (mk_exn CompilerError ("文件不存在: " +:+ input_file)));
      (Exception, fun e =>
         raise (mk_exn CompilerError ("读取文件失败: " +:+ exc_text e)))] ;;;
   (* compile *)
   src <- gets (fun s : St => source_code (fst s)) ;;
   solidity_code <- compile src ;;
   (* write the output file *)
   (if truthy output_file then
      let out := default EmptyString output_file in
      log ("写入输出文件: " +:+ out) ;;;
      try_except
        (update_fs (fun files => os_makedirs files (dirname out)) ;;;
         update_fs (fun files => open_write files out solidity_code))
        [(Exception, fun e =>
            raise (mk_exn CompilerError ("写入文件失败: " +:+ exc_text e)))]
    else ret tt) ;;;
   ret solidity_code)%py.

Definition get_tokens (self : t Token) : list Token := tokens self.

Definition get_ast (self : t Token) : option Program.t := ast self.

Definition get_solidity_code (self : t Token) : string := solidity_code self.

End Methods.

End ChineseSolidityCompiler.

(** ** compiler.py: the module-level convenience functions *)

Section ModuleFunctions.

Context {Token : Type}.
Variable tokenize : string -> Res (list Token).
Variable parse : list Token -> Res Program.t.
Variable generate_solidity : option Program.t -> Res string.

(** Run a method on a compiler object that is local to the call: only the
    world outlives it. *)
Definition with_new_compiler {A} (verbose : option bool)
    (method : M (@ChineseSolidityCompiler.St Token) A)
    : M (World Token) A :=
  fun w =>
    let '(r, (_, w')) := method (ChineseSolidityCompiler.__init__ verbose, w)
    in (r, w').

Definition compile_file (input_file : string) (output_file : option string)
    (verbose : option bool) : M (World Token) string :=
  with_new_compiler verbose
    (ChineseSolidityCompiler.compile_file tokenize parse generate_solidity
       input_file output_file).

Definition compile_code (source_code : string) (verbose : option bool)
    : M (World Token) string :=
  with_new_compiler verbose
    (ChineseSolidityCompiler.compile tokenize parse generate_solidity
       source_code).

End ModuleFunctions.

(** ** Derived notions used by the statements below *)

Section Derived.

Context {Token : Type}.
Variable tokenize : string -> Res (list Token).
Variable parse : list Token -> Res Program.t.
Variable generate_solidity : option Program.t -> Res string.

(** A session: [compile_code] called on each (source, verbose) in turn, every
    exception caught by the caller; what is left is the world. *)
Fixpoint run_session (session : list (string * option bool))
    (w : World Token) : World Token :=
  match session with
  | [] => w
  | (source, verbose) :: rest =>
      run_session rest
        (snd (compile_code tokenize parse generate_solidity source verbose w))
  end.

End Derived.

(** [occurs needle hay]: [needle in hay]. *)
Fixpoint occurs (needle hay : string) : bool :=
  String.prefix needle hay ||
  match hay with
  | EmptyString => false
  | String _ rest => occurs needle rest
  end.

(** The names an error kind can go by in a message: the kinds of the
    specification, the exception classes of compiler.py, and the three
    labels [compile] writes, without their colon. *)
Definition error_kinds : list string :=
  ["LexError"; "ParseError"; "CodeGenError";
   "LexerError"; "ParserError"; "CompilerError";
   "词法分析失败"; "语法分析失败"; "代码生成失败"].

(** A message of the shape [<kind> at <line>:<column>: <detail>], [<kind>]
    being an error kind. *)
Definition positioned (msg : string) : Prop :=
  exists (kind detail : string) (line column : nat),
    In kind error_kinds /\
    msg = kind +:+ " at " +:+ pretty line +:+ ":" +:+ pretty column
               +:+ ": " +:+ detail.

(** The label [compile] puts in front of the text of a stage's exception. *)
Definition stage_label (c : ExcClass) : string :=
  match c with
  | LexerError => "词法分析失败: "
  | ParserError => "语法分析失败: "
  | CodeGenError => "代码生成失败: "
  | _ => EmptyString
  end.

(** The exception [compile] raises for a stage exception [e0]. *)
Definition tagged (c : ExcClass) (e0 : exn) : exn :=
  mk_exn c (stage_label c +:+ exc_text e0).

(** The lines [log] prints for the given messages. *)
Definition log_lines (verbose : bool) (messages : list string)
    : list string :=
  if verbose then map (String.append "[编译器] ") messages else [].

(** *** The generator's output shape *)

Definition newline : string := String "010"%char EmptyString.

(** Modelled from the spec: the Solidity generator
    ([codegen.solidity_generator], which compiler.py imports and whose code
    is not available).  Sections 4.3 and 6: the output begins with the
    licence comment line, the pragma line and a blank line, followed by
    each contract in source order. *)
Definition preamble : string :=
  "// SPDX-License-Identifier: MIT" +:+ newline +:+
  "pragma solidity ^0.8.0;" +:+ newline +:+
  newline.

(** Modelled from the spec: [emit(Program)], total on programs; how one
    contract is laid out is a parameter. *)
Definition emit (emit_contract : Contract.t -> string) (p : Program.t)
    : string :=
  preamble +:+
  String.concat EmptyString (map emit_contract (Program.contracts p)).

(** *** Sample stages

    Stand-ins for the imported stage functions, small enough to evaluate:
    the tokenizer cuts the source at blanks and refuses a question mark,
    the parser accepts the empty program and one empty contract. *)
Definition sample_tokenize (source : string) : Res (list string) :=
  if occurs "?" source
  then Raise (mk_exn (UserError "LexError") "unexpected character")
  else Ok (String.words source ++ ["EOF"])%list.

Definition sample_parse (toks : list string) : Res Program.t :=
  match toks with
  | ["EOF"] => Ok (Program.init None None None)
  | ["合约"; name; "{"; "}"; "EOF"] =>
      Ok (Program.init
            (Some [Contract.init (Some name) None None None None None None])
            None None)
  | _ => Raise (mk_exn (UserError "ParseError") "unexpected token")
  end.

Definition sample_contract (c : Contract.t) : string :=
  "contract " +:+ Contract.name c +:+ " {}" +:+ newline.

Definition sample_generate (a : option Program.t) : Res string :=
  match a with
  | Some p => Ok (emit sample_contract p)
  | None => Raise (mk_exn (UserError "TypeError") "no program")
  end.

(** Stand-ins for the two parts of the markup renderer that are taken as
    given: style names are left as they are, and no parameters of a meta
    tag are refused. *)
Definition sample_normalize (name : string) : string := name.

Definition sample_handler_error (parameters : string) : option string := None.

Definition empty_world : World string := mkWorld [] ∅ [].

(** A world with one source file, a directory and an unacceptable file. *)
Definition sample_world : World string :=
  mkWorld []
    (<["token.zhs" := File "合约 甲 { }"]>
       (<["bad.zhs" := File "合约 ?"]>
          (<["contracts/token.zhs" := File "合约 甲 { }"]>
             (<["contracts" := Dir]> ∅))))
    [].

(** The stage calls made between two worlds. *)
Definition new_calls {Token} (before after : World Token)
    : list (StageCall Token) :=
  drop (length (calls before)) (calls after).

(** The stage categories an exception object belongs to. *)
Definition categories_of (e : exn) : list ExcClass :=
  List.filter (isinstance e) [LexerError; ParserError; CodeGenError].

(** ** cli.py: the [compile] and [check] commands *)

Definition dot : ascii := "."%char.

Fixpoint take_while {A} (f : A -> bool) (l : list A) : list A :=
  match l with
  | [] => []
  | x :: r => if f x then x :: take_while f r else []
  end.

(** [os.path.splitext] (posixpath): the extension starts at the last dot of
    the last path component, unless only dots come before it in that
    component; then, and when the component has no dot, there is no
    extension. *)
Definition splitext (p : string) : string * string :=
  let r := reverse (list_ascii_of_string p) in
  let rbase := take_while (fun c => negb (Ascii.eqb c slash)) r in
  let rhead := drop_while (fun c => negb (Ascii.eqb c slash)) r in
  let rext := take_while (fun c => negb (Ascii.eqb c dot)) rbase in
  match drop_while (fun c => negb (Ascii.eqb c dot)) rbase with
  | [] => (p, EmptyString)
  | d :: rstem =>
      if forallb (fun c => Ascii.eqb c dot) rstem then (p, EmptyString)
      else (string_of_list_ascii (reverse (rstem ++ rhead)),
            string_of_list_ascii (reverse (rext ++ [d])))
  end.

(** What a call of [console.print] was given: marked-up text with an
    optional style, an object (the AST), or a panel around highlighted
    code. *)
Inductive ConsoleCall :=
  | PrintText (markup : string) (style : option string)
  | PrintObject (a : option Program.t)
  | PrintPanel (code lexer theme : string) (line_numbers : bool)
      (title border_style : string).

(** How a command ends: it returns, or it calls [sys.exit(code)]. *)
Inductive Exit :=
  | Returned
  | SysExit (code : Z).

(** *** rich: console markup

    [console.print] of a string renders it as console markup
    ([rich.markup.render]): it looks for tags, keeps a stack of the open
    ones, and raises MarkupError for a closing tag that closes nothing.
    Only whether it raises, and with what text, is modelled here; what the
    terminal shows is not. *)

(** A tag: the text up to the first [=], and what follows it if there is
    one. *)
Record Tag := mk_tag { tag_name : string; tag_parameters : option string }.

(** [Tag.markup]. *)
Definition tag_markup (t : Tag) : string :=
  match tag_parameters t with
  | None => "[" +:+ tag_name t +:+ "]"
  | Some p => "[" +:+ tag_name t +:+ "=" +:+ p +:+ "]"
  end.

Definition lbracket : ascii := "["%char.
Definition rbracket : ascii := "]"%char.
Definition equals_sign : ascii := "="%char.

(** The characters a tag begins with: [[a-z#/@]]. *)
Definition tag_start (c : ascii) : bool :=
  let n := nat_of_ascii c in
  ((97 <=? n)%nat && (n <=? 122)%nat) || Ascii.eqb c "#"%char
  || Ascii.eqb c slash || Ascii.eqb c "@"%char.

(** A byte that continues a character of a UTF-8 text.  Python counts
    positions in characters, the strings here are the UTF-8 bytes. *)
Definition continuation (c : ascii) : bool :=
  let n := nat_of_ascii c in ((128 <=? n)%nat && (n <? 192)%nat).

(** [tag_text.partition("=")]. *)
Definition partition_equals (cs : list ascii) : Tag :=
  let is_name c := negb (Ascii.eqb c equals_sign) in
  match drop_while is_name cs with
  | [] => mk_tag (string_of_list_ascii cs) None
  | _ :: parameters =>
      mk_tag (string_of_list_ascii (take_while is_name cs))
        (Some (string_of_list_ascii parameters))
  end.

(** rich looks for: any backslashes, an opening bracket, one character a
    tag begins with, the fewest characters other than an opening bracket,
    a closing bracket.  Where a left-to-right search for that stands:
    outside a tag, [escapes] backslashes having just gone by; right after
    an opening bracket at position [at_]; or inside a tag whose text so far
    is [racc], last character first. *)
Inductive Mode :=
  | Plain (escapes : nat)
  | Opened (escapes at_ : nat)
  | Inside (escapes at_ : nat) (racc : list ascii).

(** The search so far: its mode, the position of the next character, and
    the tags found with their positions, last one first. *)
Record Scan := mk_scan {
  mode : Mode;
  position : nat;
  found : list (nat * Tag)
}.

(** One byte more.  A closing bracket ends the tag that is open; after an
    odd number of backslashes the match is an escaped bracket and no tag.
    An opening bracket inside a tag starts the search again from there. *)
Definition scan_step (s : Scan) (c : ascii) : Scan :=
  let here := position s in
  let next := if continuation c then here else S here in
  let plain :=
    if Ascii.eqb c lbracket then Opened 0 here
    else if Ascii.eqb c backslash then Plain 1
    else Plain 0 in
  match mode s with
  | Plain n =>
      if Ascii.eqb c lbracket then mk_scan (Opened n here) next (found s)
      else if Ascii.eqb c backslash
           then mk_scan (Plain (S n)) next (found s)
           else mk_scan (Plain 0) next (found s)
  | Opened n at_ =>
      if tag_start c then mk_scan (Inside n at_ [c]) next (found s)
      else mk_scan plain next (found s)
  | Inside n at_ racc =>
      if Ascii.eqb c rbracket then
        mk_scan (Plain 0) next
          (if Nat.even n
           then (at_, partition_equals (reverse racc)) :: found s
           else found s)
      else if Ascii.eqb c lbracket then
        mk_scan (Opened (length (take_while (Ascii.eqb backslash) racc)) here)
          next (found s)
      else mk_scan (Inside n at_ (c :: racc)) next (found s)
  end.

Definition scan (cs : list ascii) (s : Scan) : Scan :=
  fold_left scan_step cs s.

Definition scan_start : Scan := mk_scan (Plain 0) 0 [].

(** The tags [rich.markup._parse] yields, each with its position. *)
Definition tags_of (markup : string) : list (nat * Tag) :=
  reverse (found (scan (list_ascii_of_string markup) scan_start)).

(** One blank cut off the front of a text: the characters [str.isspace]
    accepts, in UTF-8. *)
Definition cut_blank (cs : list ascii) : option (list ascii) :=
  match cs with
  | c1 :: r1 =>
      let n1 := nat_of_ascii c1 in
      if ((9 <=? n1) && (n1 <=? 13) || (28 <=? n1) && (n1 <=? 32))%nat
      then Some r1
      else match r1 with
           | c2 :: r2 =>
               let n2 := nat_of_ascii c2 in
               if ((n1 =? 194) && ((n2 =? 133) || (n2 =? 160)))%nat
               then Some r2
               else match r2 with
                    | c3 :: r3 =>
                        let n3 := nat_of_ascii c3 in
                        if ((n1 =? 225) && (n2 =? 154) && (n3 =? 128)
                            || (n1 =? 226) && (n2 =? 128) &&
                               ((128 <=? n3) && (n3 <=? 138) || (n3 =? 168)
                                || (n3 =? 169) || (n3 =? 175))
                            || (n1 =? 226) && (n2 =? 129) && (n3 =? 159)
                            || (n1 =? 227) && (n2 =? 128) && (n3 =? 128))%nat
                        then Some r3
                        else None
                    | [] => None
                    end
           | [] => None
           end
  | [] => None
  end.

(** The same at the end of a text, given last byte first. *)
Definition cut_blank_end (rcs : list ascii) : option (list ascii) :=
  match rcs with
  | c1 :: r1 =>
      match cut_blank [c1] with
      | Some _ => Some r1
      | None =>
          match r1 with
          | c2 :: r2 =>
              match cut_blank [c2; c1] with
              | Some [] => Some r2
              | _ =>
                  match r2 with
                  | c3 :: r3 =>
                      match cut_blank [c3; c2; c1] with
                      | Some [] => Some r3
                      | _ => None
                      end
                  | [] => None
                  end
              end
          | [] => None
          end
      end
  | [] => None
  end.

Fixpoint cut_all (fuel : nat) (cut : list ascii -> option (list ascii))
    (cs : list ascii) : list ascii :=
  match fuel with
  | O => cs
  | S k => match cut cs with
           | Some rest => cut_all k cut rest
           | None => cs
           end
  end.

(** [str.strip()]. *)
Definition py_strip (s : string) : string :=
  let cs := list_ascii_of_string s in
  let front := cut_all (length cs) cut_blank cs in
  string_of_list_ascii
    (reverse (cut_all (length front) cut_blank_end (reverse front))).

(** [s.startswith(c)] for a single character, and [s[1:]]. *)
Definition starts_with (c : ascii) (s : string) : bool :=
  match s with
  | String c0 _ => Ascii.eqb c0 c
  | EmptyString => false
  end.

Definition string_tail (s : string) : string :=
  match s with
  | String _ rest => rest
  | EmptyString => EmptyString
  end.

(** [rich.errors.MarkupError], derived from [Exception]. *)
Definition MarkupError : ExcClass := UserError "MarkupError".

Section Render.

(** [rich.style.Style.normalize]: the canonical spelling of a style name;
    opening and closing tags are matched by it. *)
Variable normalize : string -> string.

(** The text of the MarkupError that the parameters of a meta tag
    ([[@click=...]]) give when they cannot be evaluated, if they cannot. *)
Variable handler_error : string -> option string.

(** [pop_style]: take the topmost open tag of that name off the stack. *)
Fixpoint pop_style (style_name : string) (stack : list Tag)
    : option (Tag * list Tag) :=
  match stack with
  | [] => None
  | t :: below =>
      if String.eqb (tag_name t) style_name then Some (t, below)
      else match pop_style style_name below with
           | Some (open_tag, rest) => Some (open_tag, t :: rest)
           | None => None
           end
  end.

(** What closing [open_tag] does besides popping it: the parameters of a
    meta tag are evaluated. *)
Definition close_tag (open_tag : Tag) (rest : list Tag) : Res (list Tag) :=
  if starts_with "@"%char (tag_name open_tag) then
    match tag_parameters open_tag with
    | Some parameters =>
        if String.eqb parameters EmptyString then Ok rest
        else match handler_error parameters with
             | Some text => Raise (mk_exn MarkupError text)
             | None => Ok rest
             end
    | None => Ok rest
    end
  else Ok rest.

(** One tag of the loop of [render], on the stack of open tags (topmost
    first). *)
Definition render_tag (stack : list Tag) (position : nat) (tag : Tag)
    : Res (list Tag) :=
  if starts_with slash (tag_name tag) then
    let style_name := py_strip (string_tail (tag_name tag)) in
    if String.eqb style_name EmptyString then
      match stack with
      | open_tag :: rest => close_tag open_tag rest
      | [] =>
          Raise (mk_exn MarkupError
                   ("closing tag '[/]' at position " +:+ pretty position
                    +:+ " has nothing to close"))
      end
    else
      match pop_style (normalize style_name) stack with
      | Some (open_tag, rest) => close_tag open_tag rest
      | None =>
          Raise (mk_exn MarkupError
                   ("closing tag '" +:+ tag_markup tag +:+ "' at position "
                    +:+ pretty position
                    +:+ " doesn't match any open tag"))
      end
  else Ok (mk_tag (normalize (tag_name tag)) (tag_parameters tag) :: stack).

Fixpoint render_tags (stack : list Tag) (tags : list (nat * Tag))
    : Res (list Tag) :=
  match tags with
  | [] => Ok stack
  | (position, tag) :: rest =>
      match render_tag stack position tag with
      | Ok stack' => render_tags stack' rest
      | Raise e => Raise e
      end
  end.

(** The exception [render(markup)] raises, if it raises. *)
Definition markup_error (markup : string) : option exn :=
  match render_tags [] (tags_of markup) with
  | Ok _ => None
  | Raise e => Some e
  end.

End Render.

(** No opening bracket is followed by a character a tag begins with: the
    text has no tag. *)
Fixpoint tag_free_chars (cs : list ascii) : bool :=
  match cs with
  | [] => true
  | c :: rest =>
      match rest with
      | next :: _ => negb (Ascii.eqb c lbracket && tag_start next)
      | [] => true
      end && tag_free_chars rest
  end.

Definition tag_free (text : string) : bool :=
  tag_free_chars (list_ascii_of_string text).

(** The next character is none a tag begins with. *)
Definition next_not_tag (cs : list ascii) : Prop :=
  match cs with
  | c :: _ => tag_start c = false
  | [] => True
  end.

(** The search is outside a tag when it has read [text]. *)
Definition ends_plain (text : string) : bool :=
  match mode (scan (list_ascii_of_string text) scan_start) with
  | Plain _ => true
  | _ => false
  end.

(** No opening bracket at all. *)
Definition no_bracket (cs : list ascii) : bool :=
  forallb (fun c => negb (Ascii.eqb c lbracket)) cs.

Section Commands.

Context {Token : Type}.

(** The two parts of rich's markup renderer that are taken as given. *)
Variable normalize : string -> string.
Variable handler_error : string -> option string.

Variable tokenize : string -> Res (list Token).
Variable parse : list Token -> Res Program.t.
Variable generate_solidity : option Program.t -> Res string.

(** [str(token)], defined with the token class in the lexer package. *)
Variable token_str : Token -> string.

(** A command runs on the console calls made so far and the world. *)
Definition CliSt : Type := list ConsoleCall * World Token.

(** [console.print]: a string is rendered as markup first, which can
    raise; an object or a panel is shown as it is, without markup.  The
    terminal is taken to accept what is written to it. *)
Definition console_print (c : ConsoleCall) : M CliSt unit :=
  let shown := modify (fun s : CliSt => ((fst s ++ [c])%list, snd s)) in
  match c with
  | PrintText markup _ =>
      match markup_error normalize handler_error markup with
      | Some e => raise e
      | None => shown
      end
  | _ => shown
  end.

(** [for x in l: body(x)]. *)
Fixpoint for_each {St A} (l : list A) (body : A -> M St unit) : M St unit :=
  match l with
  | [] => ret tt
  | x :: rest => (body x ;;; for_each rest body)%py
  end.

(** A method call on a compiler object held in a local variable; the
    object comes back with the result. *)
Definition on_compiler {A} (self : ChineseSolidityCompiler.t Token)
    (method : M (@ChineseSolidityCompiler.St Token) A)
    : M CliSt (ChineseSolidityCompiler.t Token * A) :=
  fun '(con, w) =>
    match method (self, w) with
    | (Ok a, (self', w')) => (Ok (self', a), (con, w'))
    | (Raise e, (_, w')) => (Raise e, (con, w'))
    end.

(** The output path the [compile] command uses: the one given with [-o],
    else the input path with its extension replaced by [.sol]. *)
Definition chosen_output (input_file : string) (output_file : option string)
    : string :=
  if truthy output_file then default EmptyString output_file
  else fst (splitext input_file) +:+ ".sol".

(** The text of the lines the [--show-tokens] loop prints: the first 20
    tokens, numbered from 1, then how many were left out. *)
Definition token_lines (toks : list Token) : list string :=
  (imap (fun i token => "  " +:+ pretty (i + 1)%nat +:+ ". " +:+ token_str token)
     (take 20 toks)
   ++ (if (20 <? length toks)%nat
       then ["  ... 还有 " +:+ pretty (length toks - 20)%nat +:+ " 个Token"]
       else []))%list.

(** The body of [if show_tokens:] in the [compile] command. *)
Definition show_token_list (compiler : ChineseSolidityCompiler.t Token)
    : M CliSt unit :=
  (console_print
     (PrintText (newline +:+ "[bold cyan]Token列表:[/bold cyan]") None) ;;;
   for_each
     (imap pair (take 20 (ChineseSolidityCompiler.get_tokens compiler)))
     (fun it =>
        console_print
          (PrintText ("  " +:+ pretty (fst it + 1)%nat +:+ ". "
                           +:+ token_str (snd it)) None)) ;;;
   if (20 <? length (ChineseSolidityCompiler.get_tokens compiler))%nat
   then console_print
          (PrintText
             ("  ... 还有 " +:+
              pretty (length (ChineseSolidityCompiler.get_tokens compiler)
                      - 20)%nat
              +:+ " 个Token") None)
   else ret tt)%py.

(** What the [compile] command shows after [compile_file] has returned. *)
Definition report_success (input_file output_file : string)
    (show_tokens show_ast : bool)
    (compiler : ChineseSolidityCompiler.t Token) (solidity_code : string)
    : M CliSt Exit :=
  ((if show_tokens then show_token_list compiler else ret tt) ;;;
   (if show_ast then
      console_print
        (PrintText (newline +:+ "[bold cyan]抽象语法树(AST):[/bold cyan]")
           None) ;;;
      console_print (PrintObject (ChineseSolidityCompiler.get_ast compiler))
    else ret tt) ;;;
   console_print
     (PrintText (newline +:+ "[bold green]✓ 编译成功![/bold green]") None) ;;;
   console_print (PrintText ("输入文件: " +:+ input_file) None) ;;;
   console_print (PrintText ("输出文件: " +:+ output_file) None) ;;;
   console_print
     (PrintText (newline +:+ "[bold cyan]生成的Solidity代码:[/bold cyan]")
        None) ;;;
   console_print
     (PrintPanel solidity_code "solidity" "monokai" true "Solidity代码"
        "green") ;;;
   ret Returned)%py.

(** An [except] clause of the commands: one line in red, then
    [sys.exit(1)]. *)
Definition report_failure (label : string) (e : exn) : M CliSt Exit :=
  (console_print
     (PrintText (newline +:+ label +:+ exc_text e) (Some "red")) ;;;
   ret (SysExit 1))%py.

(** The body of the [compile] command.  The progress spinner is a transient
    display and is left out. *)
Definition compile_command (input_file : string)
    (output_file : option string) (verbose show_tokens show_ast : bool)
    : M CliSt Exit :=
  try_except
    (let output_file := chosen_output input_file output_file in
     r <- on_compiler (ChineseSolidityCompiler.__init__ (Some verbose))
            (ChineseSolidityCompiler.compile_file tokenize parse
               generate_solidity input_file (Some output_file)) ;;
     report_success input_file output_file show_tokens show_ast
       (fst r) (snd r))%py
    [(CompilerError, report_failure "[bold red]✗ 编译失败:[/bold red] ");
     (Exception, report_failure "[bold red]✗ 错误:[/bold red] ")].

(** The body of the [check] command, the progress spinner left out as
    well. *)
Definition check_command (input_file : string) : M CliSt Exit :=
  try_except
    (source_code <- (fun '(con, w) =>
                       (open_read (fs w) input_file, (con, w))) ;;
     on_compiler (ChineseSolidityCompiler.__init__ (Some false))
       (ChineseSolidityCompiler.compile tokenize parse generate_solidity
          source_code) ;;;
     console_print
       (PrintText (newline +:+ "[bold green]✓ 语法检查通过![/bold green]")
          None) ;;;
     console_print (PrintText ("文件: " +:+ input_file) None) ;;;
     ret Returned)%py
    [(CompilerError, report_failure "[bold red]✗ 语法错误:[/bold red] ");
     (Exception, report_failure "[bold red]✗ 错误:[/bold red] ")].

(** *** Notions the statements about the commands use *)

(** [console.print] does not raise on this. *)
Definition printable (c : ConsoleCall) : Prop :=
  match c with
  | PrintText markup _ => markup_error normalize handler_error markup = None
  | _ => True
  end.

(** [m] returns [a] having made the console calls [cs] and nothing
    else. *)
Definition prints {A} (m : M CliSt A) (a : A)
    (cs : list ConsoleCall) : Prop :=
  forall con w, m (con, w) = (Ok a, ((con ++ cs)%list, w)).

(** The world is left alone: the console calls of a computation do not
    touch it. *)
Definition keeps_world {A} (m : M CliSt A) : Prop :=
  forall s, snd (snd (m s)) = snd s.

(** The tokens the listing shows have texts without tags. *)
Definition tokens_tag_free (toks : list Token) : Prop :=
  Forall (fun token => tag_free (token_str token) = true) (take 20 toks).

(** The report of a successful [compile] command. *)
Definition success_report (input_file out : string)
    (show_tokens show_ast : bool)
    (compiler : ChineseSolidityCompiler.t Token) (code : string)
    : list ConsoleCall :=
  (((if show_tokens
     then PrintText (newline +:+ "[bold cyan]Token列表:[/bold cyan]") None ::
          ((fun l => PrintText l None) <$>
             token_lines
               (ChineseSolidityCompiler.get_tokens compiler))
     else []) ++
    (if show_ast
     then [PrintText (newline +:+ "[bold cyan]抽象语法树(AST):[/bold cyan]")
             None;
           PrintObject (ChineseSolidityCompiler.get_ast compiler)]
     else [])) ++
   [PrintText (newline +:+ "[bold green]✓ 编译成功![/bold green]") None;
    PrintText ("输入文件: " +:+ input_file) None;
    PrintText ("输出文件: " +:+ out) None;
    PrintText (newline +:+ "[bold cyan]生成的Solidity代码:[/bold cyan]") None;
    PrintPanel code "solidity" "monokai" true "Solidity代码" "green"])%list.

End Commands.

(** * Properties *)

(** ** Exceptions *)

Lemma isinstance_Exception (e : exn) : isinstance e Exception = true.
Proof. destruct e as [[] txt]; reflexivity. Qed.

(** ** Strings *)

Lemma prefix_app (s t : string) : String.prefix s (s +:+ t) = true.
Proof.
  induction s as [|c s IH]; simpl; [ by destruct t | ].
  destruct (Ascii.ascii_dec c c); [ exact IH | congruence ].
Qed.

Lemma occurs_prefix (needle hay : string) :
  String.prefix needle hay = true -> occurs needle hay = true.
Proof. destruct hay; simpl; intros ->; reflexivity. Qed.

(** A message that begins with one of the three labels of [compile] is not
    of that shape, whatever follows the label: no error kind followed by
    " at " is a prefix of a label. *)
Lemma tagged_not_positioned (c : ExcClass) (e0 : exn) :
  In c [LexerError; ParserError; CodeGenError] ->
  ~ positioned (exc_text (tagged c e0)).
Proof.
  intros Hc (kind & detail & line & column & Hk & Heq).
  unfold tagged in Heq. cbn [exc_text] in Heq.
  remember (exc_text e0) as t0 eqn:Ht0. clear Ht0.
  remember (pretty line +:+ ":" +:+ pretty column +:+ ": " +:+ detail)
    as rest eqn:Hrest. clear Hrest.
  unfold error_kinds in Hk. simpl in Hc, Hk.
  destruct Hc as [<- | [<- | [<- | []]]];
    repeat (destruct Hk as [<- | Hk]; [ vm_compute in Heq; discriminate Heq | ]);
    destruct Hk.
Qed.

(** ** What one call of [compile] does *)

Section CompileFacts.

Context {Token : Type}.
Variable tokenize : string -> Res (list Token).
Variable parse : list Token -> Res Program.t.
Variable generate_solidity : option Program.t -> Res string.

Local Abbreviation compile :=
  (ChineseSolidityCompiler.compile tokenize parse generate_solidity).
Local Abbreviation Self := (ChineseSolidityCompiler.t Token).
Local Abbreviation mkSelf := ChineseSolidityCompiler.mk.

(** [compile] spelled out by the outcome of the stages. *)
Lemma compile_unfold (source : string) (self : Self) (w : World Token) :
  let v := ChineseSolidityCompiler.verbose self in
  let old_ast := ChineseSolidityCompiler.ast self in
  let old_code := ChineseSolidityCompiler.solidity_code self in
  compile source (self, w) =
  match tokenize source with
  | Raise e0 =>
      (Raise (tagged LexerError e0),
       (mkSelf v source (ChineseSolidityCompiler.tokens self) old_ast
          old_code,
        mkWorld (stdout w ++ log_lines v ["开始词法分析..."]) (fs w)
          (calls w ++ [CallTokenize source])))
  | Ok toks =>
      let l1 := ["开始词法分析...";
                 "词法分析完成，共 " +:+ pretty (length toks) +:+ " 个Token";
                 "开始语法分析..."] in
      match parse toks with
      | Raise e0 =>
          (Raise (tagged ParserError e0),
           (mkSelf v source toks old_ast old_code,
            mkWorld (stdout w ++ log_lines v l1) (fs w)
              (calls w ++ [CallTokenize source; CallParse toks])))
      | Ok a =>
          let l2 := (l1 ++ ["语法分析完成"; "开始代码生成..."])%list in
          let cs := [CallTokenize source; CallParse toks;
                     CallGenerate (Some a)] in
          match generate_solidity (Some a) with
          | Raise e0 =>
              (Raise (tagged CodeGenError e0),
               (mkSelf v source toks (Some a) old_code,
                mkWorld (stdout w ++ log_lines v l2) (fs w) (calls w ++ cs)))
          | Ok code =>
              (Ok code,
               (mkSelf v source toks (Some a) code,
                mkWorld (stdout w ++ log_lines v (l2 ++ ["代码生成完成"])%list)
                  (fs w) (calls w ++ cs)))
          end
      end
  end.
Proof.
  destruct self as [v src toks0 ast0 code0], w as [out files cs0]; simpl.
  unfold ChineseSolidityCompiler.compile, ChineseSolidityCompiler.log,
    ChineseSolidityCompiler.call_tokenize, ChineseSolidityCompiler.call_parse,
    ChineseSolidityCompiler.call_generate_solidity, try_except, bind, gets,
    lift, raise, ret, ChineseSolidityCompiler.print,
    ChineseSolidityCompiler.record_call, ChineseSolidityCompiler.set_tokens,
    ChineseSolidityCompiler.set_ast,
    ChineseSolidityCompiler.set_source_code,
    ChineseSolidityCompiler.set_solidity_code, modify, tagged, log_lines.
  destruct v; simpl.
  all: destruct (tokenize source) as [toks|e0]; simpl;
    [ destruct (parse toks) as [a|e0]; simpl;
      [ destruct (generate_solidity (Some a)) as [code|e0]; simpl | ] | ].
  all: rewrite ?isinstance_Exception; simpl;
    rewrite <- ?(assoc_L (++)); simpl; rewrite ?app_nil_r; reflexivity.
Qed.

Local Abbreviation result_of source self w := (fst (compile source (self, w))).
Local Abbreviation self_after source self w :=
  (fst (snd (compile source (self, w)))).
Local Abbreviation world_after source self w :=
  (snd (snd (compile source (self, w)))).

Lemma new_calls_app (w w' : World Token) (made : list (StageCall Token)) :
  calls w' = (calls w ++ made)%list -> new_calls w w' = made.
Proof. unfold new_calls. intros ->. apply drop_app_length. Qed.

(** C1: whatever the source and the compiler object, [compile] calls the
    tokenizer on the source first, then the parser on exactly the tokens the
    tokenizer returned, then the generator on exactly the AST the parser
    returned, and returns the string the generator returned; a stage is
    left out only when the stage before it raised. *)
Theorem compile_runs_stages_in_order
    (source : string) (self : Self) (w : World Token) :
  let r := result_of source self w in
  let made := new_calls w (world_after source self w) in
  match tokenize source with
  | Raise e0 => made = [CallTokenize source] /\ r = Raise (tagged LexerError e0)
  | Ok toks =>
      match parse toks with
      | Raise e0 =>
          made = [CallTokenize source; CallParse toks] /\
          r = Raise (tagged ParserError e0)
      | Ok a =>
          made = [CallTokenize source; CallParse toks; CallGenerate (Some a)]
          /\ match generate_solidity (Some a) with
             | Ok code => r = Ok code
             | Raise e0 => r = Raise (tagged CodeGenError e0)
             end
      end
  end.
Proof.
  intros r made. subst r made. rewrite compile_unfold.
  destruct (tokenize source) as [toks|e0]; simpl;
    [ destruct (parse toks) as [a|e0]; simpl;
      [ destruct (generate_solidity (Some a)) as [code|e0]; simpl | ] | ].
  all: split; [ by apply new_calls_app | reflexivity ].
Qed.

(** Every exception object belongs to at most one of the three stage
    categories. *)
Lemma categories_disjoint (x : exn) : length (categories_of x) <= 1.
Proof. destruct x as [[] txt]; vm_compute; lia. Qed.

(** How a failing call comes about: the stage that raised, and what it
    raised. *)
Lemma compile_failure_cases (source : string) (self : Self) (w : World Token)
    (e : exn) :
  result_of source self w = Raise e ->
  (exists e0, tokenize source = Raise e0 /\ e = tagged LexerError e0) \/
  (exists toks e0, tokenize source = Ok toks /\ parse toks = Raise e0 /\
     e = tagged ParserError e0) \/
  (exists toks a e0, tokenize source = Ok toks /\ parse toks = Ok a /\
     generate_solidity (Some a) = Raise e0 /\ e = tagged CodeGenError e0).
Proof.
  rewrite compile_unfold.
  destruct (tokenize source) as [toks|e0] eqn:Ht; simpl;
    [ destruct (parse toks) as [a|e1] eqn:Hp; simpl;
      [ destruct (generate_solidity (Some a)) as [code|e2] eqn:Hg; simpl
      | ] | ];
    intros H; inversion H; subst.
  - right; right. exists toks, a, e2. done.
  - right; left. exists toks, e1. done.
  - left. exists e0. done.
Qed.

(** C2: a call of [compile] that fails raises one exception, whose class is
    fixed by the stage that raised: LexerError when the tokenizer raised,
    ParserError when the parser raised, CodeGenError when the generator
    raised; the exception belongs to that one stage category only, and no
    exception object belongs to two of the three categories. *)
Theorem compile_failure_tagged_by_stage
    (source : string) (self : Self) (w : World Token) (e : exn) :
  result_of source self w = Raise e ->
  ( (exists e0, tokenize source = Raise e0) /\
      exc_class e = LexerError /\ categories_of e = [LexerError]
    \/
    (exists toks e0, tokenize source = Ok toks /\ parse toks = Raise e0) /\
      exc_class e = ParserError /\ categories_of e = [ParserError]
    \/
    (exists toks a e0, tokenize source = Ok toks /\ parse toks = Ok a /\
        generate_solidity (Some a) = Raise e0) /\
      exc_class e = CodeGenError /\ categories_of e = [CodeGenError] )
  /\ (forall x : exn, length (categories_of x) <= 1).
Proof.
  intros H. split; [ | exact categories_disjoint ].
  destruct (compile_failure_cases _ _ _ _ H)
    as [(e0 & Ht & ->) | [(toks & e0 & Ht & Hp & ->)
                         | (toks & a & e0 & Ht & Hp & Hg & ->)]].
  - left. repeat split; eauto.
  - right; left. repeat split; eauto.
  - right; right. repeat split; eauto 10.
Qed.

(** The message of a failed [compile] never has the shape
    [<kind> at <line>:<column>: <detail>]. *)
Lemma compile_failure_not_positioned
    (source : string) (self : Self) (w : World Token) (e : exn) :
  result_of source self w = Raise e -> ~ positioned (exc_text e).
Proof.
  intros H.
  destruct (compile_failure_cases _ _ _ _ H)
    as [(e0 & _ & ->) | [(toks & e0 & _ & _ & ->)
                        | (toks & a & e0 & _ & _ & _ & ->)]];
    apply tagged_not_positioned; simpl; tauto.
Qed.

(** C3 (amended): the exception of a failed [compile] is fixed by the stage
    that raised: class LexerError and the label "词法分析失败: " when the
    tokenizer raised, ParserError and "语法分析失败: " when the parser
    raised, CodeGenError and "代码生成失败: " when the generator raised, the
    label followed by the text of the exception that stage raised and by
    nothing else.  The message never has the shape
    [<kind> at <line>:<column>: <detail>]: [compile] puts no error kind,
    line or column in front of the stage's text. *)
Theorem compile_failure_message
    (source : string) (self : Self) (w : World Token) (e : exn) :
  result_of source self w = Raise e ->
  ((exists e0, tokenize source = Raise e0 /\
      e = mk_exn LexerError ("词法分析失败: " +:+ exc_text e0)) \/
   (exists toks e0, tokenize source = Ok toks /\ parse toks = Raise e0 /\
      e = mk_exn ParserError ("语法分析失败: " +:+ exc_text e0)) \/
   (exists toks a e0, tokenize source = Ok toks /\ parse toks = Ok a /\
      generate_solidity (Some a) = Raise e0 /\
      e = mk_exn CodeGenError ("代码生成失败: " +:+ exc_text e0)))
  /\ ~ positioned (exc_text e).
Proof.
  intros H. split; [ | exact (compile_failure_not_positioned _ _ _ _ H) ].
  exact (compile_failure_cases _ _ _ _ H).
Qed.

Local Abbreviation code_of :=
  (compile_code tokenize parse generate_solidity).

(** The result of [compile] is a function of the source alone. *)
Lemma compile_result_same (source : string) (self1 self2 : Self)
    (w1 w2 : World Token) :
  result_of source self1 w1 = result_of source self2 w2.
Proof.
  rewrite !compile_unfold.
  destruct (tokenize source) as [toks|e0]; simpl; [ | reflexivity ].
  destruct (parse toks) as [a|e0]; simpl; [ | reflexivity ].
  destruct (generate_solidity (Some a)); reflexivity.
Qed.

Lemma compile_code_result (source : string) (verbose : option bool)
    (w : World Token) :
  fst (code_of source verbose w) =
  result_of source (ChineseSolidityCompiler.__init__ verbose) w.
Proof.
  unfold compile_code, with_new_compiler.
  destruct (compile source _) as [r [self' w']]. reflexivity.
Qed.

(** C6: two invocations of [compile_code] on the same source give the same
    result, whatever was compiled before, in whatever order, with whatever
    verbosity, and whatever the earlier calls left behind; the same holds
    for the [compile] method on a compiler object that is used again. *)
Theorem compile_code_deterministic (source : string) :
  (forall v w,
     fst (compile_code tokenize parse generate_solidity source v
            (snd (compile_code tokenize parse generate_solidity source v w)))
     = fst (compile_code tokenize parse generate_solidity source v w)) /\
  (forall session v1 v2 w1 w2,
     fst (compile_code tokenize parse generate_solidity source v1
            (run_session tokenize parse generate_solidity session w1))
     = fst (compile_code tokenize parse generate_solidity source v2 w2)) /\
  (forall self1 self2 w1 w2,
     fst (ChineseSolidityCompiler.compile tokenize parse generate_solidity
            source (self1, w1))
     = fst (ChineseSolidityCompiler.compile tokenize parse generate_solidity
              source (self2, w2))).
Proof.
  split; [ | split ].
  - intros v w. rewrite !compile_code_result. apply compile_result_same.
  - intros session v1 v2 w1 w2. rewrite !compile_code_result.
    apply compile_result_same.
  - intros. apply compile_result_same.
Qed.

(** C7 (amended): the accessors take no source.  After [compile(source)]
    on a compiler object, [get_tokens()] is the token sequence the
    tokenizer returned for that source and [get_ast()] is the AST the
    parser returned for it; when that stage (or one before it) raised
    instead, the accessor returns what the object held before the call. *)
Theorem accessors_return_intermediate_structures
    (source : string) (self : Self) (w : World Token) :
  ChineseSolidityCompiler.get_tokens (self_after source self w) =
    match tokenize source with
    | Ok toks => toks
    | Raise _ => ChineseSolidityCompiler.get_tokens self
    end
  /\
  ChineseSolidityCompiler.get_ast (self_after source self w) =
    match tokenize source with
    | Ok toks => match parse toks with
                 | Ok a => Some a
                 | Raise _ => ChineseSolidityCompiler.get_ast self
                 end
    | Raise _ => ChineseSolidityCompiler.get_ast self
    end.
Proof.
  rewrite !compile_unfold.
  destruct (tokenize source) as [toks|e0]; simpl; [ | done ].
  destruct (parse toks) as [a|e0]; simpl; [ | done ].
  destruct (generate_solidity (Some a)); done.
Qed.

(** After a call of [compile] whose tokenizer raised, the accessors return
    what the object held: two objects that held different tokens still
    differ. *)
Lemma accessors_after_failure (source : string) (e0 : exn)
    (self : Self) (w : World Token) :
  tokenize source = Raise e0 ->
  ChineseSolidityCompiler.get_tokens (self_after source self w)
    = ChineseSolidityCompiler.get_tokens self /\
  ChineseSolidityCompiler.get_ast (self_after source self w)
    = ChineseSolidityCompiler.get_ast self.
Proof. intros Ht. rewrite !compile_unfold, Ht. done. Qed.

(** C8: when the generator is the emitter of the specification, every
    string [compile] returns is the line "// SPDX-License-Identifier: MIT",
    the line "pragma solidity ^0.8.0;" and an empty line, followed by the
    text of the contracts of the parsed program and nothing before them. *)
Theorem compiled_output_begins_with_preamble
    (emit_contract : Contract.t -> string)
    (source : string) (self : Self) (w : World Token) (code : string) :
  (forall p, generate_solidity (Some p) = Ok (emit emit_contract p)) ->
  result_of source self w = Ok code ->
  String.prefix preamble code = true /\
  exists toks a,
    tokenize source = Ok toks /\ parse toks = Ok a /\
    code = "// SPDX-License-Identifier: MIT" +:+ newline +:+
           "pragma solidity ^0.8.0;" +:+ newline +:+
           newline +:+
           String.concat EmptyString
             (map emit_contract (Program.contracts a)).
Proof.
  intros Hgen. rewrite compile_unfold.
  destruct (tokenize source) as [toks|e0] eqn:Ht; simpl; [ | discriminate ].
  destruct (parse toks) as [a|e0] eqn:Hp; simpl; [ | discriminate ].
  rewrite Hgen. intros [= <-]. split.
  - apply prefix_app.
  - exists toks, a. split; [ done | split; [ done | ] ]. reflexivity.
Qed.

Local Abbreviation method_compile_file :=
  (ChineseSolidityCompiler.compile_file tokenize parse generate_solidity).
Local Abbreviation function_compile_file :=
  (compile_file tokenize parse generate_solidity).



End CompileFacts.

(** ** The node classes *)

(** C4: a Function built without a visibility has visibility PUBLIC, one
    built without a mutability has mutability NONE (so a Function built
    with no modifier at all is public with mutability none), and a
    StateVariable built without a visibility has visibility PRIVATE. *)
Theorem node_defaults :
  (forall name parameters return_type body line column,
     let f := Function.init name parameters return_type None None body
                line column in
     Function.visibility f = PUBLIC /\ Function.mutability f = NONE) /\
  (forall name parameters return_type mutability body line column,
     Function.visibility
       (Function.init name parameters return_type None mutability body
          line column) = PUBLIC) /\
  (forall name parameters return_type visibility body line column,
     Function.mutability
       (Function.init name parameters return_type visibility None body
          line column) = NONE) /\
  (forall name var_type initial_value line column,
     StateVariable.visibility
       (StateVariable.init name var_type None initial_value line column)
     = PRIVATE).
Proof. repeat split. Qed.

(** C5: a Contract node has one optional constructor slot: it holds at
    most one Constructor, a Contract built without a constructor holds
    none, and one built with a constructor holds exactly that one. *)
Theorem contract_has_at_most_one_constructor :
  (forall c : Contract.t, length (Contract.constructors c) <= 1) /\
  (forall name state_variables functions events line column,
     let c := Contract.init name state_variables functions events None
                line column in
     Contract.constructor c = None /\ Contract.constructors c = []) /\
  (forall name state_variables functions events k line column,
     Contract.constructors
       (Contract.init name state_variables functions events (Some k)
          line column) = [k]).
Proof.
  split; [ | split ].
  - intros c. unfold Contract.constructors.
    destruct (Contract.constructor c); simpl; lia.
  - intros. split; reflexivity.
  - reflexivity.
Qed.

(** C10: on a new ChineseSolidityCompiler, before any [compile],
    [get_tokens()] is the empty list, [get_ast()] is [None] and
    [get_solidity_code()] is the empty string. *)
Theorem new_compiler_accessors (Token : Type) (verbose : option bool) :
  let self := @ChineseSolidityCompiler.__init__ Token verbose in
  ChineseSolidityCompiler.get_tokens self = [] /\
  ChineseSolidityCompiler.get_ast self = None /\
  ChineseSolidityCompiler.get_solidity_code self = EmptyString.
Proof. repeat split. Qed.

(** ** The driver on the sample stages *)

Example sample_compile_contract :
  fst (ChineseSolidityCompiler.compile sample_tokenize sample_parse
         sample_generate "合约 甲 { }"
         (ChineseSolidityCompiler.__init__ None, empty_world))
  = Ok (preamble +:+ "contract 甲 {}" +:+ newline).
Proof. reflexivity. Qed.

Example sample_compile_calls :
  new_calls empty_world
    (snd (snd (ChineseSolidityCompiler.compile sample_tokenize sample_parse
                 sample_generate "合约 甲 { }"
                 (ChineseSolidityCompiler.__init__ None, empty_world))))
  = [CallTokenize "合约 甲 { }";
     CallParse ["合约"; "甲"; "{"; "}"; "EOF"];
     CallGenerate
       (Some (Program.init
                (Some [Contract.init (Some "甲") None None None None None
                         None])
                None None))].
Proof. reflexivity. Qed.

Example sample_compile_parse_failure :
  fst (ChineseSolidityCompiler.compile sample_tokenize sample_parse
         sample_generate "合约"
         (ChineseSolidityCompiler.__init__ None, empty_world))
  = Raise (mk_exn ParserError "语法分析失败: unexpected token").
Proof. reflexivity. Qed.

Example sample_compile_verbose_log :
  stdout (snd (compile_code sample_tokenize sample_parse sample_generate
                 EmptyString (Some true) empty_world))
  = ["[编译器] 开始词法分析...";
     "[编译器] 词法分析完成，共 1 个Token";
     "[编译器] 开始语法分析...";
     "[编译器] 语法分析完成";
     "[编译器] 开始代码生成...";
     "[编译器] 代码生成完成"].
Proof. reflexivity. Qed.

Local Abbreviation sample_compile :=
  (ChineseSolidityCompiler.compile sample_tokenize sample_parse
     sample_generate).
Local Abbreviation new_self := (@ChineseSolidityCompiler.__init__ string None).

(** The sample tokenizer refuses the source "?": the call fails in the
    tokenizer and the exception is a LexerError and nothing else. *)
Lemma compile_failure_tagged_by_stage_witness :
  let e := mk_exn LexerError "词法分析失败: unexpected character" in
  fst (sample_compile "?" (new_self, empty_world)) = Raise e /\
  ( ( (exists e0, sample_tokenize "?" = Raise e0) /\
        exc_class e = LexerError /\ categories_of e = [LexerError]
      \/
      (exists toks e0, sample_tokenize "?" = Ok toks /\
          sample_parse toks = Raise e0) /\
        exc_class e = ParserError /\ categories_of e = [ParserError]
      \/
      (exists toks a e0, sample_tokenize "?" = Ok toks /\
          sample_parse toks = Ok a /\ sample_generate (Some a) = Raise e0) /\
        exc_class e = CodeGenError /\ categories_of e = [CodeGenError] )
    /\ (forall x : exn, length (categories_of x) <= 1) ).
Proof.
  split; [ reflexivity | ].
  apply (compile_failure_tagged_by_stage sample_tokenize sample_parse
           sample_generate "?" new_self empty_world).
  reflexivity.
Defined.

(** The sample parser refuses the tokens of "合约": the message is the
    parser label followed by the parser's own text. *)
Lemma compile_failure_message_witness :
  let e := mk_exn ParserError "语法分析失败: unexpected token" in
  fst (sample_compile "合约" (new_self, empty_world)) = Raise e /\
  ((exists e0, sample_tokenize "合约" = Raise e0 /\
      e = mk_exn LexerError ("词法分析失败: " +:+ exc_text e0)) \/
   (exists toks e0, sample_tokenize "合约" = Ok toks /\
      sample_parse toks = Raise e0 /\
      e = mk_exn ParserError ("语法分析失败: " +:+ exc_text e0)) \/
   (exists toks a e0, sample_tokenize "合约" = Ok toks /\
      sample_parse toks = Ok a /\ sample_generate (Some a) = Raise e0 /\
      e = mk_exn CodeGenError ("代码生成失败: " +:+ exc_text e0)))
  /\ ~ positioned (exc_text e).
Proof.
  split; [ reflexivity | ].
  apply (compile_failure_message sample_tokenize sample_parse
           sample_generate "合约" new_self empty_world).
  reflexivity.
Defined.

(** C3, as stated, fails, and not for want of positions in the stages'
    texts: whatever the tokenizer, the parser and the generator are and
    whatever they raise, the message of a failed [compile] begins with one
    of the three labels and so is never of the shape
    [<kind> at <line>:<column>: <detail>].  Failing calls exist: on the
    sample stages the source "?" fails. *)
Lemma compile_message_not_positioned :
  (forall (Token : Type) (tokenize : string -> Res (list Token))
          (parse : list Token -> Res Program.t)
          (generate_solidity : option Program.t -> Res string)
          (source : string) (self : ChineseSolidityCompiler.t Token)
          (w : World Token) (e : exn),
     fst (ChineseSolidityCompiler.compile tokenize parse generate_solidity
            source (self, w)) = Raise e ->
     ~ positioned (exc_text e)) /\
  ~ (forall (source : string) (e : exn),
       fst (sample_compile source (new_self, empty_world)) = Raise e ->
       positioned (exc_text e)).
Proof.
  split.
  - intros Token tokenize parse generate_solidity source self w e.
    apply compile_failure_not_positioned.
  - intros H.
    specialize (H "?" (mk_exn LexerError "词法分析失败: unexpected character")
                  eq_refl).
    revert H.
    apply (compile_failure_not_positioned sample_tokenize sample_parse
             sample_generate "?" new_self empty_world).
    reflexivity.
Qed.

(** C7, as stated, fails: the accessors are no functions of a source.
    Whatever the stages are, after a [compile] whose tokenizer raised the
    accessors return what the object held, so objects that held different
    tokens return different tokens for the same source; on the sample
    stages the source "?" is such a source, and no [tokens_of] and
    [ast_of] give what the accessors return after [compile(source)]. *)
Lemma accessors_not_functions_of_source :
  (forall (Token : Type) (tokenize : string -> Res (list Token))
          (parse : list Token -> Res Program.t)
          (generate_solidity : option Program.t -> Res string)
          (source : string) (e0 : exn)
          (self1 self2 : ChineseSolidityCompiler.t Token)
          (w1 w2 : World Token),
     tokenize source = Raise e0 ->
     ChineseSolidityCompiler.get_tokens self1
       <> ChineseSolidityCompiler.get_tokens self2 ->
     ChineseSolidityCompiler.get_tokens
       (fst (snd (ChineseSolidityCompiler.compile tokenize parse
                    generate_solidity source (self1, w1))))
     <> ChineseSolidityCompiler.get_tokens
          (fst (snd (ChineseSolidityCompiler.compile tokenize parse
                       generate_solidity source (self2, w2))))) /\
  ~ (exists (tokens_of : string -> list string)
            (ast_of : string -> option Program.t),
       forall (source : string) (self : ChineseSolidityCompiler.t string)
              (w : World string),
         let self' := fst (snd (sample_compile source (self, w))) in
         ChineseSolidityCompiler.get_tokens self' = tokens_of source /\
         ChineseSolidityCompiler.get_ast self' = ast_of source).
Proof.
  split.
  - intros Token tokenize parse generate_solidity source e0 self1 self2
      w1 w2 Ht Hne.
    destruct (accessors_after_failure tokenize parse generate_solidity
                source e0 self1 w1 Ht) as [-> _].
    destruct (accessors_after_failure tokenize parse generate_solidity
                source e0 self2 w2 Ht) as [-> _].
    exact Hne.
  - intros (tokens_of & ast_of & H).
    destruct (H "?" new_self empty_world) as [H1 _].
    destruct (H "?" (ChineseSolidityCompiler.mk false EmptyString ["甲"] None
                       EmptyString) empty_world) as [H2 _].
    cbv zeta in H1, H2. rewrite <- H2 in H1. vm_compute in H1.
    discriminate H1.
Qed.

(** The source "合约 甲 { }" compiles on the sample stages, whose generator
    is the specification's emitter. *)
Lemma compiled_output_begins_with_preamble_witness :
  let code := preamble +:+ "contract 甲 {}" +:+ newline in
  (forall p, sample_generate (Some p) = Ok (emit sample_contract p)) /\
  fst (sample_compile "合约 甲 { }" (new_self, empty_world)) = Ok code /\
  String.prefix preamble code = true /\
  exists toks a,
    sample_tokenize "合约 甲 { }" = Ok toks /\ sample_parse toks = Ok a /\
    code = "// SPDX-License-Identifier: MIT" +:+ newline +:+
           "pragma solidity ^0.8.0;" +:+ newline +:+
           newline +:+
           String.concat EmptyString
             (map sample_contract (Program.contracts a)).
Proof.
  split; [ reflexivity | split; [ reflexivity | ] ].
  apply (compiled_output_begins_with_preamble sample_tokenize sample_parse
           sample_generate sample_contract "合约 甲 { }" new_self
           empty_world).
  - reflexivity.
  - reflexivity.
Defined.


(** ** Making directories and writing *)

Lemma adds_dirs_refl (files : gmap string node) : adds_dirs files files.
Proof. intros p. by left. Qed.

Lemma adds_dirs_trans (f1 f2 f3 : gmap string node) :
  adds_dirs f1 f2 -> adds_dirs f2 f3 -> adds_dirs f1 f3.
Proof.
  intros H12 H23 p. destruct (H23 p) as [E3 | [E2 E3]];
    destruct (H12 p) as [E1 | [E0 E1]].
  - left. by rewrite E3.
  - right. split; [ done | by rewrite E3 ].
  - right. split; [ by rewrite <- E1 | done ].
  - rewrite E2 in E1. discriminate.
Qed.

Lemma os_mkdir_adds (files files2 : gmap string node)
    (parent : option string) (name : string) :
  os_mkdir files parent name = Ok files2 -> adds_dirs files files2.
Proof.
  unfold os_mkdir. destruct (files !! name) eqn:Hname; [ discriminate | ].
  assert (Hins : adds_dirs files (<[name := Dir]> files)).
  { intros p. destruct (decide (p = name)) as [-> | Hne].
    - right. by rewrite lookup_insert_eq.
    - left. by rewrite lookup_insert_ne. }
  destruct parent as [h|]; [ | by intros [= <-] ].
  destruct (files !! h) as [[t|]|]; try discriminate. by intros [= <-].
Qed.

Lemma makedirs_go_cons (name : string) (heads : list string)
    (files : gmap string node) :
  makedirs_go (name :: heads) files =
  match (match heads with
         | h :: _ =>
             if path_exists files h then Ok files
             else match makedirs_go heads files with
                  | Raise e =>
                      if isinstance e FileExistsError then Ok files
                      else Raise e
                  | Ok files1 => Ok files1
                  end
         | [] => Ok files
         end) with
  | Raise e => Raise e
  | Ok files1 =>
      match os_mkdir files1 (head heads) name with
      | Ok files2 => Ok files2
      | Raise e =>
          if isinstance e OSError && is_dir files1 name then Ok files1
          else Raise e
      end
  end.
Proof. destruct heads; reflexivity. Qed.

(** [os.makedirs] only ever adds directories. *)
Lemma makedirs_go_adds (rchain : list string)
    (files files2 : gmap string node) :
  makedirs_go rchain files = Ok files2 -> adds_dirs files files2.
Proof.
  revert files files2.
  induction rchain as [|name heads IH]; intros files files2.
  - intros [= <-]. apply adds_dirs_refl.
  - rewrite makedirs_go_cons.
    assert (Hmade : forall files1,
              match heads with
              | h :: _ =>
                  if path_exists files h then Ok files
                  else match makedirs_go heads files with
                       | Raise e =>
                           if isinstance e FileExistsError then Ok files
                           else Raise e
                       | Ok files1 => Ok files1
                       end
              | [] => Ok files
              end = Ok files1 -> adds_dirs files files1).
    { intros files1. destruct heads as [|h t].
      - intros [= <-]. apply adds_dirs_refl.
      - destruct (path_exists files h).
        + intros [= <-]. apply adds_dirs_refl.
        + destruct (makedirs_go (h :: t) files) as [f|e] eqn:Hgo.
          * intros [= <-]. by apply IH.
          * destruct (isinstance e FileExistsError); [ | discriminate ].
            intros [= <-]. apply adds_dirs_refl. }
    destruct (match heads with [] => _ | _ => _ end) as [files1|e];
      [ | discriminate ].
    specialize (Hmade files1 eq_refl).
    destruct (os_mkdir files1 (head heads) name) as [f2|e] eqn:Hmk.
    + intros [= <-]. eapply adds_dirs_trans; [ exact Hmade | ].
      by eapply os_mkdir_adds.
    + destruct (isinstance e OSError && is_dir files1 name);
        [ | discriminate ].
      by intros [= <-].
Qed.

Lemma os_makedirs_adds (files files2 : gmap string node) (d : string) :
  os_makedirs files d = Ok files2 -> adds_dirs files files2.
Proof.
  unfold os_makedirs. destruct (String.eqb d EmptyString); [ discriminate | ].
  destruct (has_nul d); [ discriminate | ].
  destruct (all_slashes d).
  - intros [= <-]. apply adds_dirs_refl.
  - apply makedirs_go_adds.
Qed.

Lemma open_write_ok (files files2 : gmap string node) (path text : string) :
  open_write files path text = Ok files2 ->
  files2 = <[path := File text]> files.
Proof.
  unfold open_write. destruct (has_nul path); [ discriminate | ].
  destruct (ends_with_slash path); [ discriminate | ].
  destruct (files !! path) as [[t|]|]; try discriminate; by intros [= <-].
Qed.

(** ** The whole of [compile_file] *)

Section CompileFileFacts.

Context {Token : Type}.
Variable tokenize : string -> Res (list Token).
Variable parse : list Token -> Res Program.t.
Variable generate_solidity : option Program.t -> Res string.

Local Abbreviation Self := (ChineseSolidityCompiler.t Token).
Local Abbreviation mkSelf := ChineseSolidityCompiler.mk.
Local Abbreviation run_compile :=
  (ChineseSolidityCompiler.compile tokenize parse generate_solidity).
Local Abbreviation run_compile_file :=
  (ChineseSolidityCompiler.compile_file tokenize parse generate_solidity).

(** [compile_file] spelled out by the outcome of its three steps: reading,
    compiling, writing. *)
Lemma compile_file_unfold (input_file : string) (output_file : option string)
    (self : Self) (w : World Token) :
  let v := ChineseSolidityCompiler.verbose self in
  let w1 := mkWorld (stdout w ++ log_lines v ["读取源文件: " +:+ input_file])
              (fs w) (calls w) in
  run_compile_file input_file output_file (self, w) =
  match open_read (fs w) input_file with
  | Raise e =>
      (Raise (mk_exn CompilerError
                (if isinstance e FileNotFoundError
                 then "文件不存在: " +:+ input_file
                 else "读取文件失败: " +:+ exc_text e)),
       (self, w1))
  | Ok text =>
      match run_compile text
              (mkSelf v text (ChineseSolidityCompiler.tokens self)
                 (ChineseSolidityCompiler.ast self)
                 (ChineseSolidityCompiler.solidity_code self), w1) with
      | (Raise e, s) => (Raise e, s)
      | (Ok code, (self2, w2)) =>
          if truthy output_file then
            let out := default EmptyString output_file in
            let lines := (stdout w2 ++
                          log_lines (ChineseSolidityCompiler.verbose self2)
                            ["写入输出文件: " +:+ out])%list in
            match os_makedirs (fs w2) (dirname out) with
            | Raise e =>
                (Raise (mk_exn CompilerError
                          ("写入文件失败: " +:+ exc_text e)),
                 (self2, mkWorld lines (fs w2) (calls w2)))
            | Ok files1 =>
                match open_write files1 out code with
                | Raise e =>
                    (Raise (mk_exn CompilerError
                              ("写入文件失败: " +:+ exc_text e)),
                     (self2, mkWorld lines files1 (calls w2)))
                | Ok files2 =>
                    (Ok code, (self2, mkWorld lines files2 (calls w2)))
                end
            end
          else (Ok code, (self2, w2))
      end
  end.
Proof.
  destruct self as [v src toks0 ast0 code0], w as [out0 files cs]; simpl.
  unfold ChineseSolidityCompiler.compile_file, ChineseSolidityCompiler.log,
    ChineseSolidityCompiler.read_file, ChineseSolidityCompiler.update_fs,
    ChineseSolidityCompiler.set_source_code, try_except, bind, gets, raise,
    ret, ChineseSolidityCompiler.print, modify, log_lines.
  destruct v; simpl.
  all: destruct (open_read files input_file) as [text|e]; simpl;
    [ | destruct (isinstance e FileNotFoundError); simpl;
        rewrite ?isinstance_Exception, ?app_nil_r; reflexivity ].
  all: rewrite ?app_nil_r;
    match goal with
    | |- context [ChineseSolidityCompiler.compile _ _ _ ?t ?s] =>
        destruct (ChineseSolidityCompiler.compile tokenize parse
                    generate_solidity t s) as [[code|e] [self2 w2]]
    end; simpl; [ | reflexivity ].
  all: destruct (truthy output_file); simpl; [ | reflexivity ].
  all: destruct self2 as [v2 src2 toks2 ast2 code2],
         w2 as [out2 files2 cs2]; simpl.
  all: destruct v2; simpl;
    (destruct (os_makedirs files2 _) as [files1|e]; simpl;
     [ destruct (open_write files1 _ code) as [files3|e]; simpl | ]);
    rewrite ?isinstance_Exception, ?app_nil_r; reflexivity.
Qed.

Lemma compile_keeps_fs (source : string) (self : Self) (w : World Token) :
  fs (snd (snd (run_compile source (self, w)))) = fs w.
Proof.
  rewrite compile_unfold.
  destruct (tokenize source) as [toks|e0]; simpl; [ | reflexivity ].
  destruct (parse toks) as [a|e0]; simpl; [ | reflexivity ].
  destruct (generate_solidity (Some a)); reflexivity.
Qed.

Lemma tagged_is_CompilerError (c : ExcClass) (e0 : exn) :
  In c [LexerError; ParserError; CodeGenError] ->
  isinstance (tagged c e0) CompilerError = true /\
  categories_of (tagged c e0) = [c].
Proof.
  intros [<- | [<- | [<- | []]]]; split; reflexivity.
Qed.

(** What [compile] raises is tagged with one of the three stage classes. *)
Lemma compile_raises_tagged (source : string) (self : Self)
    (w : World Token) (e : exn) :
  fst (run_compile source (self, w)) = Raise e ->
  exists c e0, In c [LexerError; ParserError; CodeGenError] /\
               e = tagged c e0.
Proof.
  intros H.
  destruct (compile_failure_cases _ _ _ _ _ _ _ H)
    as [(e0 & _ & ->) | [(toks & e0 & _ & _ & ->)
                        | (toks & a & e0 & _ & _ & _ & ->)]].
  - exists LexerError, e0. split; [ by left | done ].
  - exists ParserError, e0. split; [ right; by left | done ].
  - exists CodeGenError, e0. split; [ right; right; by left | done ].
Qed.

(** The classes of the exceptions that leave [compile_file]. *)
Lemma compile_file_raise_classes
    (input_file : string) (output_file : option string)
    (self : Self) (w : World Token) (e : exn) :
  fst (run_compile_file input_file output_file (self, w)) = Raise e ->
  In (exc_class e) [CompilerError; LexerError; ParserError; CodeGenError].
Proof.
  rewrite compile_file_unfold.
  destruct (open_read (fs w) input_file) as [text|e0]; simpl;
    [ | intros [= <-]; by left ].
  match goal with
  | |- context [ChineseSolidityCompiler.compile _ _ _ ?t ?s] =>
      destruct (ChineseSolidityCompiler.compile tokenize parse
                  generate_solidity t s) as [[code|e1] [self2 w2]] eqn:Hc
  end; simpl.
  - destruct (truthy output_file); simpl; [ | discriminate ].
    destruct (os_makedirs _ _) as [files1|e1]; simpl;
      [ | intros [= <-]; by left ].
    destruct (open_write _ _ _) as [files2|e1]; simpl;
      [ discriminate | intros [= <-]; by left ].
  - intros [= <-].
    apply (f_equal fst) in Hc. simpl in Hc.
    destruct (compile_raises_tagged _ _ _ _ Hc) as (c & e0 & Hin & ->).
    by right.
Qed.

(** X1: whatever goes wrong in [compile_file] - reading the input, a stage
    of the pipeline, writing the output - the exception that leaves it is
    an instance of CompilerError (a plain one or one of the three stage
    classes), the class the command line catches. *)
Theorem compile_file_raises_only_CompilerError
    (input_file : string) (output_file : option string)
    (self : Self) (w : World Token) (e : exn) :
  fst (run_compile_file input_file output_file (self, w)) = Raise e ->
  isinstance e CompilerError = true /\
  In (exc_class e) [CompilerError; LexerError; ParserError; CodeGenError].
Proof.
  intros H. pose proof (compile_file_raise_classes _ _ _ _ _ H) as Hin.
  split; [ | exact Hin ].
  unfold isinstance.
  destruct Hin as [<- | [<- | [<- | [<- | []]]]]; reflexivity.
Qed.

(** [compile] when every stage returns. *)
Lemma compile_success (source : string) (self : Self) (w : World Token)
    (toks : list Token) (a : Program.t) (code : string) :
  tokenize source = Ok toks -> parse toks = Ok a ->
  generate_solidity (Some a) = Ok code ->
  exists lines,
    run_compile source (self, w) =
    (Ok code,
     (mkSelf (ChineseSolidityCompiler.verbose self) source toks (Some a) code,
      mkWorld (stdout w ++ lines) (fs w)
        (calls w ++ [CallTokenize source; CallParse toks;
                     CallGenerate (Some a)]))).
Proof.
  intros Ht Hp Hg. rewrite compile_unfold, Ht; simpl. rewrite Hp; simpl.
  rewrite Hg. eauto.
Qed.

Lemma open_read_file (files : gmap string node) (path text : string) :
  files !! path = Some (File text) -> open_read files path = Ok text.
Proof. unfold open_read. by intros ->. Qed.

Lemma truthy_Some (out : string) :
  out <> EmptyString -> truthy (Some out) = true.
Proof.
  intros H. simpl. apply negb_true_iff. by apply String.eqb_neq.
Qed.

(** X2: an output path with no directory part (such as "token.sol") makes
    [compile_file] fail after the whole pipeline has run: [os.makedirs] is
    called on the empty directory name, which it refuses, so the call
    raises CompilerError("写入文件失败: ...") and no file is written, although
    the compiler object already holds the generated code. *)
Theorem compile_file_output_without_directory
    (input_file out text : string) (toks : list Token) (a : Program.t)
    (code : string) (self : Self) (w : World Token) :
  out <> EmptyString -> dirname out = EmptyString ->
  fs w !! input_file = Some (File text) ->
  tokenize text = Ok toks -> parse toks = Ok a ->
  generate_solidity (Some a) = Ok code ->
  let r := run_compile_file input_file (Some out) (self, w) in
  fst r = Raise (mk_exn CompilerError
                   "写入文件失败: [Errno 2] No such file or directory: ''") /\
  fs (snd (snd r)) = fs w /\
  ChineseSolidityCompiler.get_solidity_code (fst (snd r)) = code /\
  new_calls w (snd (snd r)) =
    [CallTokenize text; CallParse toks; CallGenerate (Some a)].
Proof.
  intros Hout Hdir Hin Ht Hp Hg r. subst r.
  rewrite compile_file_unfold, (open_read_file _ _ _ Hin).
  match goal with
  | |- context [ChineseSolidityCompiler.compile _ _ _ ?t (?s, ?w1)] =>
      destruct (compile_success t s w1 toks a code Ht Hp Hg) as [lines ->]
  end.
  rewrite (truthy_Some _ Hout). cbv zeta.
  change (default EmptyString (Some out)) with out. rewrite Hdir. simpl.
  repeat split. by apply new_calls_app.
Qed.

(** X4: without an output path ([None] or the empty string) [compile_file]
    never touches the file system, and on a readable input its result is
    the result of [compile] on the text of the file. *)
Theorem compile_file_without_output
    (input_file : string) (output_file : option string)
    (self : Self) (w : World Token) :
  truthy output_file = false ->
  fs (snd (snd (run_compile_file input_file output_file (self, w)))) = fs w
  /\ forall text, fs w !! input_file = Some (File text) ->
       fst (run_compile_file input_file output_file (self, w)) =
       fst (run_compile text (self, w)).
Proof.
  intros Hout. rewrite compile_file_unfold, Hout. split.
  - destruct (open_read (fs w) input_file) as [text|e0]; simpl;
      [ | reflexivity ].
    match goal with
    | |- context [ChineseSolidityCompiler.compile _ _ _ ?t (?s, ?w1)] =>
        pose proof (compile_keeps_fs t s w1) as Hfs;
        destruct (ChineseSolidityCompiler.compile tokenize parse
                    generate_solidity t (s, w1)) as [[code|e1] [self2 w2]]
    end; exact Hfs.
  - intros text Hin. rewrite (open_read_file _ _ _ Hin).
    match goal with
    | |- context [ChineseSolidityCompiler.compile _ _ _ ?t (?s, ?w1)] =>
        rewrite <- (compile_result_same tokenize parse generate_solidity
                      t s self w1 w);
        destruct (ChineseSolidityCompiler.compile tokenize parse
                    generate_solidity t (s, w1)) as [[code|e1] [self2 w2]]
    end; reflexivity.
Qed.

(** X5: when a stage of the pipeline raises, [compile_file] lets that
    exception through as it is (the stage class, not a plain
    CompilerError) and leaves the file system untouched, whatever output
    path was asked for. *)
Theorem compile_file_stage_failure
    (input_file text : string) (output_file : option string)
    (self : Self) (w : World Token) (e : exn) :
  fs w !! input_file = Some (File text) ->
  fst (run_compile text (self, w)) = Raise e ->
  let r := run_compile_file input_file output_file (self, w) in
  fst r = Raise e /\ fs (snd (snd r)) = fs w /\
  exists c, In c [LexerError; ParserError; CodeGenError] /\
            exc_class e = c /\ categories_of e = [c].
Proof.
  intros Hin Hraise r. subst r.
  rewrite compile_file_unfold, (open_read_file _ _ _ Hin).
  match goal with
  | |- context [ChineseSolidityCompiler.compile _ _ _ ?t (?s, ?w1)] =>
      pose proof (compile_keeps_fs t s w1) as Hfs;
      pose proof (compile_result_same tokenize parse generate_solidity
                    t s self w1 w) as Hsame;
      destruct (ChineseSolidityCompiler.compile tokenize parse
                  generate_solidity t (s, w1)) as [[code|e1] [self2 w2]]
  end; simpl in *; rewrite Hraise in Hsame; [ discriminate | ].
  injection Hsame as ->. repeat split; [ exact Hfs | ].
  destruct (compile_raises_tagged _ _ _ _ Hraise) as (c & e0 & Hc & ->).
  exists c. split; [ done | split; [ done | ] ].
  by apply tagged_is_CompilerError.
Qed.

(** X6: when [open] on the input path raises anything else than
    FileNotFoundError (the path names a directory, or lies below a regular
    file, ...), [compile_file] raises a plain CompilerError whose text is
    "读取文件失败: " followed by the text of that exception; no stage is
    called, nothing is written and the compiler object is unchanged. *)
Theorem compile_file_unreadable_input
    (input_file : string) (output_file : option string)
    (self : Self) (w : World Token) (e0 : exn) :
  open_read (fs w) input_file = Raise e0 ->
  isinstance e0 FileNotFoundError = false ->
  let r := run_compile_file input_file output_file (self, w) in
  fst r = Raise (mk_exn CompilerError ("读取文件失败: " +:+ exc_text e0)) /\
  calls (snd (snd r)) = calls w /\ fs (snd (snd r)) = fs w /\
  fst (snd r) = self.
Proof.
  intros Hread Hclass r. subst r. rewrite compile_file_unfold, Hread, Hclass.
  simpl. done.
Qed.

(** [compile_file] when reading, compiling and writing all go through. *)
Lemma compile_file_success
    (input_file out text : string) (toks : list Token) (a : Program.t)
    (code : string) (self : Self) (w : World Token)
    (files1 files2 : gmap string node) :
  open_read (fs w) input_file = Ok text ->
  tokenize text = Ok toks -> parse toks = Ok a ->
  generate_solidity (Some a) = Ok code ->
  out <> EmptyString ->
  os_makedirs (fs w) (dirname out) = Ok files1 ->
  open_write files1 out code = Ok files2 ->
  exists self2 lines,
    run_compile_file input_file (Some out) (self, w) =
    (Ok code,
     (self2,
      mkWorld lines files2
        (calls w ++ [CallTokenize text; CallParse toks;
                     CallGenerate (Some a)]))) /\
    ChineseSolidityCompiler.get_tokens self2 = toks.
Proof.
  intros Hin Ht Hp Hg Hout Hmk Hwr.
  rewrite compile_file_unfold, Hin.
  match goal with
  | |- context [ChineseSolidityCompiler.compile _ _ _ ?t (?s, ?w1)] =>
      destruct (compile_success t s w1 toks a code Ht Hp Hg) as [lines ->]
  end.
  rewrite (truthy_Some _ Hout). cbv zeta.
  change (default EmptyString (Some out)) with out.
  simpl fs. rewrite Hmk, Hwr. simpl. eexists _, _. split; reflexivity.
Qed.


Lemma log_lines_app (v : bool) (a b : list string) :
  log_lines v (a ++ b) = (log_lines v a ++ log_lines v b)%list.
Proof. destruct v; simpl; [ apply map_app | reflexivity ]. Qed.

Lemma log_lines_prefixed (v : bool) (msgs : list string) :
  Forall (fun l => String.prefix "[编译器] " l = true) (log_lines v msgs).
Proof.
  destruct v; simpl; [ | constructor ].
  induction msgs as [|m msgs IH]; simpl; constructor; [ | exact IH ].
  apply (prefix_app "[编译器] " m).
Qed.

(** What [compile] prints, and that it keeps [self.verbose]. *)
Lemma compile_stdout (source : string) (self : Self) (w : World Token) :
  exists msgs,
    stdout (snd (snd (run_compile source (self, w)))) =
      (stdout w ++ log_lines (ChineseSolidityCompiler.verbose self) msgs)%list
    /\ ChineseSolidityCompiler.verbose (fst (snd (run_compile source (self, w))))
       = ChineseSolidityCompiler.verbose self.
Proof.
  rewrite compile_unfold.
  destruct (tokenize source) as [toks|e0]; simpl; [ | eauto ].
  destruct (parse toks) as [a|e0]; simpl; [ | eauto ].
  destruct (generate_solidity (Some a)); simpl; eauto.
Qed.

Lemma compile_file_stdout (input_file : string)
    (output_file : option string) (self : Self) (w : World Token) :
  exists msgs,
    stdout (snd (snd (run_compile_file input_file output_file (self, w)))) =
    (stdout w ++ log_lines (ChineseSolidityCompiler.verbose self) msgs)%list.
Proof.
  rewrite compile_file_unfold.
  destruct (open_read (fs w) input_file) as [text|e0]; simpl; [ | eauto ].
  match goal with
  | |- context [ChineseSolidityCompiler.compile _ _ _ ?t (?s, ?w1)] =>
      destruct (compile_stdout t s w1) as (msgs & Hout & Hv);
      destruct (ChineseSolidityCompiler.compile tokenize parse
                  generate_solidity t (s, w1)) as [[code|e1] [self2 w2]]
  end; simpl in *.
  - destruct (truthy output_file); simpl.
    + exists (["读取源文件: " +:+ input_file] ++ msgs
              ++ ["写入输出文件: " +:+ default EmptyString output_file])%list.
      rewrite !log_lines_app, !(assoc_L (++)), <- Hout, Hv.
      destruct (os_makedirs _ _) as [files1|e1]; simpl; [ | done ].
      destruct (open_write _ _ _); done.
    + exists (["读取源文件: " +:+ input_file] ++ msgs)%list.
      by rewrite log_lines_app, (assoc_L (++)).
  - exists (["读取源文件: " +:+ input_file] ++ msgs)%list.
    by rewrite log_lines_app, (assoc_L (++)).
Qed.

(** X7: [compile_file] only ever adds lines to the terminal output, every
    line it adds starts with the marker "[编译器] ", and a compiler that is
    not verbose adds none. *)
Theorem compile_file_prints_only_log_lines
    (input_file : string) (output_file : option string)
    (self : Self) (w : World Token) :
  exists new,
    stdout (snd (snd (run_compile_file input_file output_file (self, w)))) =
      (stdout w ++ new)%list /\
    Forall (fun l => String.prefix "[编译器] " l = true) new /\
    (ChineseSolidityCompiler.verbose self = false -> new = []).
Proof.
  destruct (compile_file_stdout input_file output_file self w)
    as (msgs & Hout).
  exists (log_lines (ChineseSolidityCompiler.verbose self) msgs).
  split; [ exact Hout | split; [ apply log_lines_prefixed | ] ].
  by intros ->.
Qed.

(** X8: a failed [compile] leaves the results of the previous successful
    one in the object: after [compile] returned [code1] for a first source
    and then raised for a second, [get_solidity_code()] still returns
    [code1] while [source_code] is already the second source; when it was
    the tokenizer that raised, [get_tokens()] and [get_ast()] are still
    those of the first source too. *)
Theorem failed_compile_keeps_earlier_results
    (source1 source2 : string) (toks1 : list Token) (a1 : Program.t)
    (code1 : string) (self : Self) (w : World Token) (e : exn) :
  tokenize source1 = Ok toks1 -> parse toks1 = Ok a1 ->
  generate_solidity (Some a1) = Ok code1 ->
  let s1 := snd (run_compile source1 (self, w)) in
  fst (run_compile source2 s1) = Raise e ->
  let self2 := fst (snd (run_compile source2 s1)) in
  ChineseSolidityCompiler.get_solidity_code self2 = code1 /\
  ChineseSolidityCompiler.source_code self2 = source2 /\
  (exc_class e = LexerError ->
   ChineseSolidityCompiler.get_tokens self2 = toks1 /\
   ChineseSolidityCompiler.get_ast self2 = Some a1).
Proof.
  intros Ht Hp Hg s1. subst s1.
  destruct (compile_success source1 self w toks1 a1 code1 Ht Hp Hg)
    as [lines ->]. simpl snd.
  rewrite compile_unfold. simpl.
  destruct (tokenize source2) as [toks|e0]; simpl;
    [ | intros _; repeat split ].
  destruct (parse toks) as [a|e0]; simpl.
  - destruct (generate_solidity (Some a)) as [code|e0]; simpl;
      [ discriminate | ].
    intros [= <-]. repeat split; discriminate.
  - intros [= <-]. repeat split; discriminate.
Qed.

(** X9: compiling the same source again on the same object changes
    nothing: after a successful [compile] the object holds the source, its
    tokens, its AST and the returned code, and a second [compile] of that
    source returns the same code and leaves every attribute as it is. *)
Theorem compile_again_changes_nothing
    (source code : string) (self : Self) (w : World Token) :
  fst (run_compile source (self, w)) = Ok code ->
  let s1 := snd (run_compile source (self, w)) in
  let s2 := snd (run_compile source s1) in
  fst (run_compile source s1) = Ok code /\ fst s2 = fst s1 /\
  ChineseSolidityCompiler.source_code (fst s1) = source /\
  ChineseSolidityCompiler.get_solidity_code (fst s1) = code /\
  ChineseSolidityCompiler.verbose (fst s1)
    = ChineseSolidityCompiler.verbose self.
Proof.
  intros Hok s1 s2. subst s2 s1. revert Hok.
  rewrite (compile_unfold _ _ _ source self w).
  destruct (tokenize source) as [toks|e0] eqn:Ht; simpl; [ | discriminate ].
  destruct (parse toks) as [a|e0] eqn:Hp; simpl; [ | discriminate ].
  destruct (generate_solidity (Some a)) as [c|e0] eqn:Hg; simpl;
    [ | discriminate ].
  intros [= ->]. rewrite compile_unfold, Ht. simpl. rewrite Hp. simpl.
  rewrite Hg. simpl. done.
Qed.

End CompileFileFacts.

(** ** Output paths of the command line *)

Lemma string_of_list_ascii_app (a b : list ascii) :
  string_of_list_ascii (a ++ b) =
  string_of_list_ascii a +:+ string_of_list_ascii b.
Proof.
  induction a as [|c a IH]; [ reflexivity | ].
  change (String c (string_of_list_ascii (a ++ b)) =
          String c (string_of_list_ascii a +:+ string_of_list_ascii b)).
  by rewrite IH.
Qed.

Lemma list_ascii_of_string_app (a b : string) :
  list_ascii_of_string (a +:+ b) =
  (list_ascii_of_string a ++ list_ascii_of_string b)%list.
Proof.
  induction a as [|c a IH]; [ reflexivity | ].
  change (c :: list_ascii_of_string (a +:+ b) =
          c :: (list_ascii_of_string a ++ list_ascii_of_string b)%list).
  by rewrite IH.
Qed.

Lemma append_empty_r (s : string) : s +:+ EmptyString = s.
Proof.
  induction s as [|c s IH]; [ reflexivity | ].
  change (String c (s +:+ EmptyString) = String c s). by rewrite IH.
Qed.

Lemma take_drop_while {A} (f : A -> bool) (l : list A) :
  (take_while f l ++ drop_while f l)%list = l.
Proof.
  induction l as [|x l IH]; simpl; [ reflexivity | ].
  destruct (f x); simpl; [ by rewrite IH | reflexivity ].
Qed.

Lemma forallb_take_while {A} (f : A -> bool) (l : list A) :
  forallb f (take_while f l) = true.
Proof.
  induction l as [|x l IH]; simpl; [ reflexivity | ].
  destruct (f x) eqn:E; simpl; [ by rewrite E | reflexivity ].
Qed.

Lemma forallb_drop_while {A} (f g : A -> bool) (l : list A) :
  forallb g l = true -> forallb g (drop_while f l) = true.
Proof.
  induction l as [|x l IH]; simpl; [ done | ].
  intros [Hx Hl]%andb_true_iff.
  destruct (f x); simpl; [ by apply IH | by rewrite Hx, Hl ].
Qed.

Lemma drop_while_app_all {A} (f : A -> bool) (a b : list A) :
  forallb f a = true -> drop_while f (a ++ b) = drop_while f b.
Proof.
  induction a as [|x a IH]; simpl; [ done | ].
  intros [Hx Ha]%andb_true_iff. rewrite Hx. by apply IH.
Qed.

Lemma drop_while_idem {A} (f : A -> bool) (l : list A) :
  drop_while f (drop_while f l) = drop_while f l.
Proof.
  induction l as [|x l IH]; simpl; [ reflexivity | ].
  destruct (f x) eqn:E; [ exact IH | simpl; by rewrite E ].
Qed.

(** [dirname] only looks at what precedes the last slash. *)
Lemma dirname_same_head (p q : string) :
  drop_while (fun c => negb (Ascii.eqb c slash))
    (reverse (list_ascii_of_string p)) =
  drop_while (fun c => negb (Ascii.eqb c slash))
    (reverse (list_ascii_of_string q)) ->
  dirname p = dirname q.
Proof. unfold dirname. by intros ->. Qed.

(** Root and extension put together give the path back. *)
Lemma splitext_join (p : string) :
  fst (splitext p) +:+ snd (splitext p) = p.
Proof.
  unfold splitext.
  set (r := reverse (list_ascii_of_string p)).
  set (notslash := fun c => negb (Ascii.eqb c slash)).
  set (notdot := fun c => negb (Ascii.eqb c dot)).
  destruct (drop_while notdot (take_while notslash r)) as [|d rstem] eqn:E.
  - simpl. apply append_empty_r.
  - destruct (forallb (fun c => Ascii.eqb c dot) rstem); simpl.
    + apply append_empty_r.
    + rewrite <- string_of_list_ascii_app, <- reverse_app.
      assert (Hr : ((take_while notdot (take_while notslash r) ++ [d]) ++
                    rstem ++ drop_while notslash r)%list = r).
      { transitivity ((take_while notdot (take_while notslash r) ++
                       d :: rstem) ++ drop_while notslash r)%list.
        - by rewrite <- !(assoc_L (++)).
        - by rewrite <- E, !take_drop_while. }
      rewrite Hr. subst r. rewrite reverse_involutive.
      apply string_of_list_ascii_of_string.
Qed.

(** Replacing the extension by [.sol] keeps the directory. *)
Lemma dirname_sol (p : string) :
  dirname (fst (splitext p) +:+ ".sol") = dirname p.
Proof.
  apply dirname_same_head.
  rewrite list_ascii_of_string_app, reverse_app.
  change (reverse (list_ascii_of_string ".sol"))
    with ["l"; "o"; "s"; "."]%char.
  rewrite drop_while_app_all by reflexivity.
  unfold splitext.
  set (r := reverse (list_ascii_of_string p)).
  set (notslash := fun c => negb (Ascii.eqb c slash)).
  set (notdot := fun c => negb (Ascii.eqb c dot)).
  destruct (drop_while notdot (take_while notslash r)) as [|d rstem] eqn:E;
    [ reflexivity | ].
  destruct (forallb (fun c => Ascii.eqb c dot) rstem); [ reflexivity | ].
  simpl fst. rewrite list_ascii_of_string_of_list_ascii, reverse_involutive.
  rewrite drop_while_app_all; [ apply drop_while_idem | ].
  pose proof (forallb_drop_while notdot notslash _
                (forallb_take_while notslash r)) as H.
  rewrite E in H. simpl in H. by apply andb_true_iff in H as [_ H].
Qed.

(** ** Console markup *)

Lemma scan_cons (c : ascii) (cs : list ascii) (s : Scan) :
  scan (c :: cs) s = scan cs (scan_step s c).
Proof. reflexivity. Qed.

Lemma scan_app (a b : list ascii) (s : Scan) :
  scan (a ++ b) s = scan b (scan a s).
Proof. apply fold_left_app. Qed.

Lemma tag_free_chars_cons (c : ascii) (cs : list ascii) :
  tag_free_chars (c :: cs) = true ->
  (Ascii.eqb c lbracket = true -> next_not_tag cs) /\
  tag_free_chars cs = true.
Proof.
  simpl. intros H. apply andb_true_iff in H as [Hc Hr].
  split; [ | exact Hr ].
  intros Hb. destruct cs as [|c2 r2]; [ done | ].
  simpl. rewrite Hb in Hc. simpl in Hc. by apply negb_true_iff in Hc.
Qed.

(** The search finds no tag in a text that has none, from outside a tag. *)
Lemma scan_tag_free (cs : list ascii) :
  tag_free_chars cs = true ->
  (forall n p f, found (scan cs (mk_scan (Plain n) p f)) = f) /\
  (forall n b p f, next_not_tag cs ->
     found (scan cs (mk_scan (Opened n b) p f)) = f).
Proof.
  induction cs as [|c r IH]; [ done | ].
  intros H. apply tag_free_chars_cons in H as [Hnext Hr].
  destruct (IH Hr) as [IHp IHo].
  split.
  - intros n p f. rewrite scan_cons. unfold scan_step. cbn [mode position found].
    destruct (Ascii.eqb c lbracket) eqn:Hb.
    + apply IHo. by apply Hnext.
    + destruct (Ascii.eqb c backslash); apply IHp.
  - intros n b p f Hc. simpl in Hc.
    rewrite scan_cons. unfold scan_step. cbn [mode position found].
    rewrite Hc.
    destruct (Ascii.eqb c lbracket) eqn:Hb.
    + apply IHo. by apply Hnext.
    + destruct (Ascii.eqb c backslash); apply IHp.
Qed.

Lemma tags_of_append (a t : string) :
  ends_plain a = true -> tag_free t = true -> tags_of (a +:+ t) = tags_of a.
Proof.
  unfold ends_plain, tags_of, tag_free. intros Ha Ht.
  rewrite list_ascii_of_string_app, scan_app.
  destruct (scan (list_ascii_of_string a) scan_start) as [m p f].
  cbn [mode found] in *. destruct m as [n| |]; try discriminate.
  by rewrite (proj1 (scan_tag_free _ Ht)).
Qed.

Lemma tags_of_tag_free (t : string) : tag_free t = true -> tags_of t = [].
Proof.
  intros Ht. change t with (EmptyString +:+ t).
  by rewrite tags_of_append.
Qed.

Lemma tag_free_chars_app (a t : list ascii) :
  no_bracket a = true -> tag_free_chars t = true ->
  tag_free_chars (a ++ t) = true.
Proof.
  induction a as [|c a IH]; [ done | ].
  intros Ha Ht. simpl in Ha. apply andb_true_iff in Ha as [Hc Ha].
  apply negb_true_iff in Hc.
  change ((c :: a) ++ t)%list with (c :: (a ++ t)%list).
  simpl. rewrite Hc, (IH Ha Ht). by destruct (a ++ t)%list.
Qed.

Lemma no_bracket_tag_free (cs : list ascii) :
  no_bracket cs = true -> tag_free_chars cs = true.
Proof.
  intros H. rewrite <- (app_nil_r cs). by apply tag_free_chars_app.
Qed.

(** Decimal numerals have no bracket. *)
Lemma pretty_N_go_no_bracket (x : N) (s : string) :
  no_bracket (list_ascii_of_string s) = true ->
  no_bracket (list_ascii_of_string (pretty_N_go x s)) = true.
Proof.
  revert s. induction (N.lt_wf_0 x) as [x _ IH]. intros s Hs.
  assert (x = 0 \/ 0 < x)%N as [->|Hpos] by lia.
  - by rewrite pretty_N_go_0.
  - rewrite pretty_N_go_step by done. apply IH.
    + by apply N.div_lt.
    + simpl. rewrite Hs, andb_true_r.
      unfold pretty_N_char. by repeat case_match.
Qed.

Lemma pretty_nat_no_bracket (n : nat) :
  no_bracket (list_ascii_of_string (pretty n)) = true.
Proof.
  unfold pretty, pretty_nat, pretty, pretty_N.
  case_decide; [ done | ]. by apply pretty_N_go_no_bracket.
Qed.

Section MarkupFacts.

Variable normalize : string -> string.
Variable handler_error : string -> option string.

Local Abbreviation markup_error_of := (markup_error normalize handler_error).

Lemma markup_error_append (a t : string) :
  ends_plain a = true -> tag_free t = true ->
  markup_error_of (a +:+ t) = markup_error_of a.
Proof. intros Ha Ht. unfold markup_error. by rewrite tags_of_append. Qed.

(** A text without a tag never makes [render] raise. *)
Lemma markup_error_tag_free (t : string) :
  tag_free t = true -> markup_error_of t = None.
Proof. intros Ht. unfold markup_error. by rewrite tags_of_tag_free. Qed.

(** An opening tag and the closing tag of the same name. *)
Lemma render_open_close (p1 p2 : nat) (name : string) :
  starts_with slash name = false -> py_strip name = name ->
  name <> EmptyString ->
  render_tags normalize handler_error []
    [(p1, mk_tag name None); (p2, mk_tag ("/" +:+ name) None)] = Ok [].
Proof.
  intros Hs Hstrip Hne.
  apply String.eqb_neq in Hne.
  cbn [render_tags]. unfold render_tag at 1. cbn [tag_name tag_parameters].
  rewrite Hs. unfold render_tag. cbn [tag_name tag_parameters].
  change (starts_with slash ("/" +:+ name)) with true.
  change (string_tail ("/" +:+ name)) with name.
  cbv iota. rewrite Hstrip, Hne. cbn [pop_style tag_name].
  rewrite String.eqb_refl. unfold close_tag. cbn [tag_name tag_parameters].
  by destruct (starts_with "@" (normalize name)).
Qed.

Lemma markup_error_styled (markup name : string) (p1 p2 : nat) :
  tags_of markup
    = [(p1, mk_tag name None); (p2, mk_tag ("/" +:+ name) None)] ->
  starts_with slash name = false -> py_strip name = name ->
  name <> EmptyString ->
  markup_error_of markup = None.
Proof.
  intros Htags Hs Hstrip Hne. unfold markup_error.
  by rewrite Htags, render_open_close.
Qed.

(** A fixed line in one style, and such a line with a text without tags
    after it. *)
Lemma markup_error_label (label text : string) (name : string)
    (p1 p2 : nat) :
  tags_of label
    = [(p1, mk_tag name None); (p2, mk_tag ("/" +:+ name) None)] ->
  starts_with slash name = false -> py_strip name = name ->
  name <> EmptyString ->
  ends_plain label = true -> tag_free text = true ->
  markup_error_of (label +:+ text) = None.
Proof.
  intros Htags Hs Hstrip Hne Hend Ht.
  rewrite markup_error_append by done.
  by apply (markup_error_styled label name p1 p2).
Qed.

End MarkupFacts.

(** ** The commands *)

Section CommandFacts.

Context {Token : Type}.
Variable normalize : string -> string.
Variable handler_error : string -> option string.
Variable tokenize : string -> Res (list Token).
Variable parse : list Token -> Res Program.t.
Variable generate_solidity : option Program.t -> Res string.
Variable token_str : Token -> string.

Local Abbreviation Self := (ChineseSolidityCompiler.t Token).
Local Abbreviation run_compile :=
  (ChineseSolidityCompiler.compile tokenize parse generate_solidity).
Local Abbreviation run_compile_file :=
  (ChineseSolidityCompiler.compile_file tokenize parse generate_solidity).
Local Abbreviation can_print := (printable normalize handler_error).
Local Abbreviation run_console_print :=
  (@console_print Token normalize handler_error).
Local Abbreviation run_show_token_list :=
  (show_token_list normalize handler_error token_str).
Local Abbreviation run_compile_command :=
  (compile_command normalize handler_error tokenize parse generate_solidity
     token_str).
Local Abbreviation run_check_command :=
  (check_command normalize handler_error tokenize parse generate_solidity).

Lemma console_print_ok (c : ConsoleCall) (con : list ConsoleCall)
    (w : World Token) :
  can_print c ->
  run_console_print c (con, w) = (Ok tt, ((con ++ [c])%list, w)).
Proof.
  unfold console_print. destruct c as [markup style| |]; simpl;
    [ intros -> | intros _ .. ]; reflexivity.
Qed.

(** The lines the commands begin their reports with. *)
Lemma printable_fixed (style : option string) :
  can_print
    (PrintText (newline +:+ "[bold cyan]Token列表:[/bold cyan]") style) /\
  can_print
    (PrintText (newline +:+ "[bold cyan]抽象语法树(AST):[/bold cyan]") style) /\
  can_print
    (PrintText (newline +:+ "[bold green]✓ 编译成功![/bold green]") style) /\
  can_print
    (PrintText (newline +:+ "[bold cyan]生成的Solidity代码:[/bold cyan]")
       style) /\
  can_print
    (PrintText (newline +:+ "[bold green]✓ 语法检查通过![/bold green]")
       style).
Proof.
  repeat split; simpl;
    (eapply markup_error_styled;
     [ vm_compute; reflexivity | reflexivity | reflexivity | discriminate ]).
Qed.

(** A text without tags after a word and a colon. *)
Lemma printable_plain (label text : string) (style : option string) :
  ends_plain label = true -> tag_free label = true ->
  tag_free text = true ->
  can_print (PrintText (label +:+ text) style).
Proof.
  intros Hend Hl Ht. simpl. rewrite markup_error_append by done.
  by apply markup_error_tag_free.
Qed.

(** The text of an exception without tags after one of the failure
    labels. *)
Lemma printable_failure (text : string) :
  tag_free text = true ->
  can_print
    (PrintText (newline +:+ "[bold red]✗ 编译失败:[/bold red] " +:+ text)
       (Some "red")) /\
  can_print
    (PrintText (newline +:+ "[bold red]✗ 语法错误:[/bold red] " +:+ text)
       (Some "red")) /\
  can_print
    (PrintText (newline +:+ "[bold red]✗ 错误:[/bold red] " +:+ text)
       (Some "red")).
Proof.
  intros Ht. repeat split; simpl.
  - change (newline +:+ "[bold red]✗ 编译失败:[/bold red] " +:+ text)
      with ((newline +:+ "[bold red]✗ 编译失败:[/bold red] ") +:+ text).
    eapply markup_error_label;
      [ vm_compute; reflexivity | reflexivity | reflexivity | discriminate
      | reflexivity | exact Ht ].
  - change (newline +:+ "[bold red]✗ 语法错误:[/bold red] " +:+ text)
      with ((newline +:+ "[bold red]✗ 语法错误:[/bold red] ") +:+ text).
    eapply markup_error_label;
      [ vm_compute; reflexivity | reflexivity | reflexivity | discriminate
      | reflexivity | exact Ht ].
  - change (newline +:+ "[bold red]✗ 错误:[/bold red] " +:+ text)
      with ((newline +:+ "[bold red]✗ 错误:[/bold red] ") +:+ text).
    eapply markup_error_label;
      [ vm_compute; reflexivity | reflexivity | reflexivity | discriminate
      | reflexivity | exact Ht ].
Qed.

(** The numbered line of a token whose text has no tag, and the line that
    counts the tokens left out. *)
Lemma printable_token_line (i : nat) (text : string) :
  tag_free text = true ->
  can_print (PrintText ("  " +:+ pretty i +:+ ". " +:+ text) None).
Proof.
  intros Ht. simpl. apply markup_error_tag_free. unfold tag_free.
  rewrite !list_ascii_of_string_app.
  rewrite !(assoc_L (++)%list).
  apply tag_free_chars_app; [ | exact Ht ].
  unfold no_bracket. rewrite !forallb_app.
  fold (no_bracket (list_ascii_of_string (pretty i))).
  by rewrite pretty_nat_no_bracket.
Qed.

Lemma printable_more_line (n : nat) :
  can_print (PrintText ("  ... 还有 " +:+ pretty n +:+ " 个Token") None).
Proof.
  simpl. apply markup_error_tag_free. unfold tag_free.
  apply no_bracket_tag_free.
  rewrite !list_ascii_of_string_app.
  unfold no_bracket. rewrite !forallb_app.
  fold (no_bracket (list_ascii_of_string (pretty n))).
  by rewrite pretty_nat_no_bracket.
Qed.

Lemma prints_ret {A} (a : A) : prints (Token := Token) (ret a) a [].
Proof. intros con w. unfold ret. by rewrite app_nil_r. Qed.

Lemma prints_bind {A B} (m : M (@CliSt Token) A)
    (k : A -> M (@CliSt Token) B) (a : A) (b : B)
    (cs1 cs2 : list ConsoleCall) :
  prints m a cs1 -> prints (k a) b cs2 -> prints (bind m k) b (cs1 ++ cs2).
Proof.
  intros Hm Hk con w. unfold bind. rewrite Hm, Hk.
  by rewrite <- (assoc_L (++)).
Qed.

Lemma prints_if {A} (b : bool) (m1 m2 : M (@CliSt Token) A) (a : A)
    (cs1 cs2 : list ConsoleCall) :
  (b = true -> prints m1 a cs1) -> (b = false -> prints m2 a cs2) ->
  prints (if b then m1 else m2) a (if b then cs1 else cs2).
Proof. destruct b; auto. Qed.

Lemma prints_console_print (c : ConsoleCall) :
  can_print c -> prints (run_console_print c) tt [c].
Proof. intros Hc con w. by apply console_print_ok. Qed.

Lemma prints_for_each {A} (f : A -> ConsoleCall) (l : list A) :
  Forall (fun x => can_print (f x)) l ->
  prints (for_each l (fun x => run_console_print (f x))) tt (f <$> l).
Proof.
  induction 1 as [|x l Hx Hl IH]; cbn [for_each].
  - apply prints_ret.
  - apply (prints_bind _ _ tt tt [f x]);
      [ by apply prints_console_print | exact IH ].
Qed.

(** Steps of a [try] block. *)
Lemma try_except_ok {St A} (body : M St A)
    (clauses : list (ExcClass * (exn -> M St A))) (s s' : St) (a : A) :
  body s = (Ok a, s') -> try_except body clauses s = (Ok a, s').
Proof. unfold try_except. by intros ->. Qed.

Lemma try_except_bind_ok {St A B} (m : M St A) (k : A -> M St B)
    (clauses : list (ExcClass * (exn -> M St B))) (s s' : St) (a : A) :
  m s = (Ok a, s') ->
  try_except (bind m k) clauses s = try_except (k a) clauses s'.
Proof. unfold try_except, bind. by intros ->. Qed.

Lemma try_except_bind_raise {St A B} (m : M St A) (k : A -> M St B)
    (clauses : list (ExcClass * (exn -> M St B))) (s s' : St) (e : exn) :
  m s = (Raise e, s') ->
  try_except (bind m k) clauses s = select_handler e clauses s'.
Proof. unfold try_except, bind. by intros ->. Qed.

Lemma on_compiler_ok {A} (self self' : Self)
    (method : M (@ChineseSolidityCompiler.St Token) A) (a : A)
    (con : list ConsoleCall) (w w' : World Token) :
  method (self, w) = (Ok a, (self', w')) ->
  on_compiler self method (con, w) = (Ok (self', a), (con, w')).
Proof. unfold on_compiler. by intros ->. Qed.

Lemma on_compiler_raise {A} (self self' : Self)
    (method : M (@ChineseSolidityCompiler.St Token) A) (e : exn)
    (con : list ConsoleCall) (w w' : World Token) :
  method (self, w) = (Raise e, (self', w')) ->
  on_compiler self method (con, w) = (Raise e, (con, w')).
Proof. unfold on_compiler. by intros ->. Qed.

Lemma keeps_world_ret {A} (a : A) :
  keeps_world (Token := Token) (ret a).
Proof. by intros s. Qed.

Lemma keeps_world_raise {A} (e : exn) :
  keeps_world (Token := Token) (@raise _ A e).
Proof. by intros s. Qed.

Lemma keeps_world_bind {A B} (m : M (@CliSt Token) A)
    (k : A -> M (@CliSt Token) B) :
  keeps_world m -> (forall a, keeps_world (k a)) -> keeps_world (bind m k).
Proof.
  intros Hm Hk s. unfold bind. specialize (Hm s).
  destruct (m s) as [[a|e] s1]; cbn [snd] in *; [ | done ].
  by rewrite Hk.
Qed.

Lemma keeps_world_console_print (c : ConsoleCall) :
  keeps_world (run_console_print c).
Proof.
  intros [con w]. unfold console_print.
  destruct c as [markup style| |]; try reflexivity.
  by destruct (markup_error _ _ _).
Qed.

Lemma keeps_world_for_each {A} (l : list A)
    (body : A -> M (@CliSt Token) unit) :
  (forall x, keeps_world (body x)) -> keeps_world (for_each l body).
Proof.
  intros Hb. induction l as [|x l IH]; cbn [for_each].
  - apply keeps_world_ret.
  - apply keeps_world_bind; [ apply Hb | by intros _ ].
Qed.

Lemma keeps_world_show_token_list (compiler : Self) :
  keeps_world (run_show_token_list compiler).
Proof.
  unfold show_token_list.
  apply keeps_world_bind; [ apply keeps_world_console_print | intros _ ].
  apply keeps_world_bind.
  - apply keeps_world_for_each. intros x. apply keeps_world_console_print.
  - intros _. destruct (_ <? _)%nat;
      [ apply keeps_world_console_print | apply keeps_world_ret ].
Qed.

Lemma keeps_world_report_success (input_file out : string)
    (show_tokens show_ast : bool) (compiler : Self) (code : string) :
  keeps_world
    (report_success normalize handler_error token_str input_file out
       show_tokens show_ast compiler code).
Proof.
  unfold report_success.
  apply keeps_world_bind;
    [ destruct show_tokens;
      [ apply keeps_world_show_token_list | apply keeps_world_ret ] | ].
  intros _. apply keeps_world_bind.
  { destruct show_ast; [ | apply keeps_world_ret ].
    apply keeps_world_bind; [ apply keeps_world_console_print | ].
    intros _. apply keeps_world_console_print. }
  intros _.
  repeat (apply keeps_world_bind;
          [ apply keeps_world_console_print | intros _ ]).
  apply keeps_world_ret.
Qed.

Lemma keeps_world_report_failure (label : string) (e : exn) :
  keeps_world (@report_failure Token normalize handler_error label e).
Proof.
  apply keeps_world_bind; [ apply keeps_world_console_print | ].
  intros _. apply keeps_world_ret.
Qed.

Lemma keeps_world_select_handler (e : exn)
    (clauses : list (ExcClass * (exn -> M (@CliSt Token) Exit))) :
  Forall (fun clause => forall e, keeps_world (snd clause e)) clauses ->
  keeps_world (select_handler e clauses).
Proof.
  induction 1 as [|[c h] rest Hh Hrest IH]; cbn [select_handler].
  - apply keeps_world_raise.
  - destruct (isinstance e c); [ apply Hh | exact IH ].
Qed.

Lemma keeps_world_try_except (body : M (@CliSt Token) Exit)
    (clauses : list (ExcClass * (exn -> M (@CliSt Token) Exit))) :
  keeps_world body ->
  Forall (fun clause => forall e, keeps_world (snd clause e)) clauses ->
  keeps_world (try_except body clauses).
Proof.
  intros Hb Hc s. unfold try_except. specialize (Hb s).
  destruct (body s) as [[a|e] s1]; cbn [snd] in *; [ done | ].
  rewrite <- Hb. by apply keeps_world_select_handler.
Qed.

Lemma show_token_list_prints (compiler : Self) :
  tokens_tag_free token_str (ChineseSolidityCompiler.get_tokens compiler) ->
  prints (run_show_token_list compiler) tt
    (PrintText (newline +:+ "[bold cyan]Token列表:[/bold cyan]") None ::
     ((fun l => PrintText l None) <$>
        token_lines token_str
          (ChineseSolidityCompiler.get_tokens compiler))).
Proof.
  intros Htoks. unfold show_token_list, token_lines.
  apply (prints_bind _ _ tt tt [_]);
    [ apply prints_console_print, (printable_fixed None) | ].
  rewrite fmap_app, fmap_imap.
  apply (prints_bind _ _ tt tt).
  - pose proof (prints_for_each
             (fun it : nat * Token =>
                PrintText ("  " +:+ pretty (fst it + 1)%nat +:+ ". "
                                +:+ token_str (snd it)) None)
             (imap pair
                (take 20 (ChineseSolidityCompiler.get_tokens compiler))))
      as Hfor.
    rewrite fmap_imap in Hfor. apply Hfor.
    apply Forall_forall. intros [i token] Hin.
    apply printable_token_line. cbn [snd].
    unfold tokens_tag_free in Htoks.
    apply (proj1 (Forall_forall _ _) Htoks).
    apply elem_of_lookup_imap in Hin as (j & y & Heq & Hlook).
    injection Heq as -> ->. by eapply list_elem_of_lookup_2.
  - destruct (20 <? length (ChineseSolidityCompiler.get_tokens compiler))%nat.
    + apply prints_console_print, printable_more_line.
    + apply prints_ret.
Qed.

(** X13: when the texts of the tokens shown hold no markup tag, the
    [--show-tokens] listing prints a heading, then one numbered line for
    each of the first 20 tokens, then - only when there are more than 20 -
    one line that says how many tokens were left out, and it does not
    raise. *)
Theorem show_token_list_output (compiler : Self)
    (con : list ConsoleCall) (w : World Token) :
  let toks := ChineseSolidityCompiler.get_tokens compiler in
  Forall (fun token => tag_free (token_str token) = true) (take 20 toks) ->
  exists lines : list string,
    show_token_list normalize handler_error token_str compiler (con, w) =
      (Ok tt,
       ((con ++
         PrintText (newline +:+ "[bold cyan]Token列表:[/bold cyan]") None ::
         ((fun l => PrintText l None) <$> lines))%list, w)) /\
    length lines =
      (min 20 (length toks) + (if 20 <? length toks then 1 else 0))%nat /\
    (forall i token, (i < 20)%nat -> toks !! i = Some token ->
       lines !! i =
       Some ("  " +:+ pretty (i + 1)%nat +:+ ". " +:+ token_str token)) /\
    ((20 < length toks)%nat ->
       lines !! 20%nat =
       Some ("  ... 还有 " +:+ pretty (length toks - 20)%nat +:+ " 个Token")).
Proof.
  intros toks Htoks. exists (token_lines token_str toks).
  split; [ by apply show_token_list_prints | ].
  unfold token_lines. split; [ | split ].
  - rewrite length_app, length_imap, length_take.
    destruct (20 <? length toks)%nat; reflexivity.
  - intros i token Hi Hlook.
    rewrite lookup_app_l.
    + by rewrite list_lookup_imap, lookup_take_lt, Hlook.
    + rewrite length_imap, length_take.
      apply lookup_lt_Some in Hlook. lia.
  - intros Hn. rewrite lookup_app_r;
      rewrite length_imap, length_take, Nat.min_l by lia; [ | lia ].
    apply Nat.ltb_lt in Hn as ->. reflexivity.
Qed.

Lemma report_success_prints (input_file out : string)
    (show_tokens show_ast : bool) (compiler : Self) (code : string) :
  tag_free input_file = true -> tag_free out = true ->
  (show_tokens = true ->
   tokens_tag_free token_str (ChineseSolidityCompiler.get_tokens compiler)) ->
  prints
    (report_success normalize handler_error token_str input_file out
       show_tokens show_ast compiler code)
    Returned
    (success_report token_str input_file out show_tokens show_ast compiler code).
Proof.
  intros Hin Hout Htoks.
  destruct (printable_fixed None) as (_ & Hast & Hok & Hcode & _).
  unfold report_success, success_report.
  rewrite <- (assoc_L (++)).
  apply (prints_bind _ _ tt).
  { apply prints_if; intros Hshow;
      [ apply show_token_list_prints, Htoks, Hshow | apply prints_ret ]. }
  apply (prints_bind _ _ tt).
  { apply prints_if; intros _; [ | apply prints_ret ].
    apply (prints_bind _ _ tt tt [_] [_]);
      [ by apply prints_console_print
      | apply prints_console_print; exact I ]. }
  apply (prints_bind _ _ tt Returned [_]);
    [ by apply prints_console_print | ].
  apply (prints_bind _ _ tt Returned [_]);
    [ by apply prints_console_print, printable_plain | ].
  apply (prints_bind _ _ tt Returned [_]);
    [ by apply prints_console_print, printable_plain | ].
  apply (prints_bind _ _ tt Returned [_]);
    [ by apply prints_console_print | ].
  apply (prints_bind _ _ tt Returned [_] []);
    [ apply prints_console_print; exact I | apply prints_ret ].
Qed.

Lemma report_failure_prints (label text : string) (e : exn) :
  can_print (PrintText (newline +:+ label +:+ exc_text e) (Some "red")) ->
  prints (@report_failure Token normalize handler_error label e) (SysExit 1)
    [PrintText (newline +:+ label +:+ exc_text e) (Some "red")].
Proof.
  intros Hp. unfold report_failure.
  apply (prints_bind _ _ tt (SysExit 1) [_] []);
    [ by apply prints_console_print | apply prints_ret ].
Qed.

(** The [compile] command after a [compile_file] that returned. *)
Lemma compile_command_returns (input_file : string)
    (output_file : option string) (verbose show_tokens show_ast : bool)
    (con : list ConsoleCall) (w w' : World Token) (compiler : Self)
    (code : string) :
  let out := chosen_output input_file output_file in
  run_compile_file input_file (Some out)
    (ChineseSolidityCompiler.__init__ (Some verbose), w)
    = (Ok code, (compiler, w')) ->
  tag_free input_file = true -> tag_free out = true ->
  (show_tokens = true ->
   tokens_tag_free token_str (ChineseSolidityCompiler.get_tokens compiler)) ->
  run_compile_command input_file output_file verbose show_tokens show_ast
    (con, w) =
  (Ok Returned,
   ((con ++ success_report token_str input_file out show_tokens show_ast compiler
              code)%list, w')).
Proof.
  intros out Hrun Hin Hout Htoks. subst out.
  unfold compile_command. cbv zeta.
  rewrite (try_except_bind_ok _ _ _ _ _ _ (on_compiler_ok _ _ _ _ con _ _ Hrun)).
  apply try_except_ok. cbn [fst snd]. by apply report_success_prints.
Qed.

(** The [compile] command after a [compile_file] that raised. *)
Lemma compile_command_fails (input_file : string)
    (output_file : option string) (verbose show_tokens show_ast : bool)
    (con : list ConsoleCall) (w w' : World Token) (compiler : Self)
    (e : exn) :
  let out := chosen_output input_file output_file in
  run_compile_file input_file (Some out)
    (ChineseSolidityCompiler.__init__ (Some verbose), w)
    = (Raise e, (compiler, w')) ->
  tag_free (exc_text e) = true ->
  run_compile_command input_file output_file verbose show_tokens show_ast
    (con, w) =
  (Ok (SysExit 1),
   ((con ++
     [if isinstance e CompilerError
      then PrintText (newline +:+ "[bold red]✗ 编译失败:[/bold red] "
                              +:+ exc_text e) (Some "red")
      else PrintText (newline +:+ "[bold red]✗ 错误:[/bold red] "
                              +:+ exc_text e) (Some "red")])%list,
    w')).
Proof.
  intros out Hrun Ht. subst out.
  destruct (printable_failure _ Ht) as (Hfail & _ & Herr).
  unfold compile_command. cbv zeta.
  rewrite (try_except_bind_raise _ _ _ _ _ _
             (on_compiler_raise _ _ _ _ con _ _ Hrun)).
  cbn [select_handler].
  destruct (isinstance e CompilerError).
  - by apply report_failure_prints.
  - rewrite isinstance_Exception. by apply report_failure_prints.
Qed.

(** Whatever the console does, the world the [compile] command leaves is
    the one [compile_file] left. *)
Lemma compile_command_world (input_file : string)
    (output_file : option string) (verbose show_tokens show_ast : bool)
    (con : list ConsoleCall) (w : World Token) :
  snd (snd (run_compile_command input_file output_file verbose show_tokens
              show_ast (con, w))) =
  snd (snd (run_compile_file input_file
              (Some (chosen_output input_file output_file))
              (ChineseSolidityCompiler.__init__ (Some verbose), w))).
Proof.
  assert (Hclauses :
    Forall (fun clause : ExcClass * (exn -> M (@CliSt Token) Exit) =>
              forall e, keeps_world (snd clause e))
      [(CompilerError,
        report_failure normalize handler_error
          "[bold red]✗ 编译失败:[/bold red] ");
       (Exception,
        report_failure normalize handler_error
          "[bold red]✗ 错误:[/bold red] ")]).
  { repeat constructor; intros e; apply keeps_world_report_failure. }
  unfold compile_command. cbv zeta.
  destruct (run_compile_file _ _ _) as [[code|e] [compiler w']] eqn:Hrun.
  - rewrite (try_except_bind_ok _ _ _ _ _ _
               (on_compiler_ok _ _ _ _ con _ _ Hrun)).
    cbn [fst snd].
    apply (keeps_world_try_except _ _
             (keeps_world_report_success _ _ _ _ _ _) Hclauses (con, w')).
  - rewrite (try_except_bind_raise _ _ _ _ _ _
               (on_compiler_raise _ _ _ _ con _ _ Hrun)).
    apply (keeps_world_select_handler _ _ Hclauses (con, w')).
Qed.

(** X11: the world the [compile] command leaves is the one [compile_file]
    left, whatever the console does.  When the texts the command puts into
    its lines - the two paths and the tokens it lists, or the text of the
    exception - hold no markup tag, it does not raise: it returns after a
    successful [compile_file], having printed a report that ends with the
    input path, the output path and a panel with the generated code; when
    [compile_file] raises it prints one line, "✗ 编译失败:" with the text of
    the exception, and calls [sys.exit(1)] - the "✗ 错误:" line for other
    exceptions is not printed. *)
Theorem compile_command_outcome (input_file : string)
    (output_file : option string) (verbose show_tokens show_ast : bool)
    (con : list ConsoleCall) (w : World Token) :
  let out := chosen_output input_file output_file in
  let run := run_compile_file input_file (Some out)
               (ChineseSolidityCompiler.__init__ (Some verbose), w) in
  let r := compile_command normalize handler_error tokenize parse
             generate_solidity token_str input_file output_file verbose
             show_tokens show_ast (con, w) in
  snd (snd r) = snd (snd run) /\
  match fst run with
  | Ok code =>
      tag_free input_file = true -> tag_free out = true ->
      (show_tokens = true ->
       Forall (fun token => tag_free (token_str token) = true)
         (take 20 (ChineseSolidityCompiler.get_tokens (fst (snd run))))) ->
      fst r = Ok Returned /\
      exists shown,
        fst (snd r) =
        (con ++ shown ++
         [PrintText (newline +:+ "[bold green]✓ 编译成功![/bold green]") None;
          PrintText ("输入文件: " +:+ input_file) None;
          PrintText ("输出文件: " +:+ out) None;
          PrintText (newline +:+ "[bold cyan]生成的Solidity代码:[/bold cyan]")
            None;
          PrintPanel code "solidity" "monokai" true "Solidity代码" "green"])%list
  | Raise e =>
      tag_free (exc_text e) = true ->
      fst r = Ok (SysExit 1) /\
      fst (snd r) =
        (con ++ [PrintText (newline +:+ "[bold red]✗ 编译失败:[/bold red] "
                                    +:+ exc_text e) (Some "red")])%list
  end.
Proof.
  intros out run r. split; [ apply compile_command_world | ].
  subst r run.
  destruct (run_compile_file input_file (Some out) _)
    as [[code|e] [compiler w']] eqn:Hrun; cbn [fst snd].
  - intros Hin Hout Htoks.
    rewrite (compile_command_returns _ _ _ _ _ _ _ _ _ _ Hrun Hin Hout Htoks).
    cbn [fst snd]. split; [ done | ].
    unfold success_report. eexists. reflexivity.
  - intros Ht.
    rewrite (compile_command_fails _ _ _ _ _ _ _ _ _ _ Hrun Ht).
    cbn [fst snd]. split; [ done | ].
    apply (f_equal fst) in Hrun. simpl in Hrun.
    pose proof (compile_file_raise_classes _ _ _ _ _ _ _ _ Hrun) as Hin.
    assert (Hc : isinstance e CompilerError = true).
    { unfold isinstance.
      destruct Hin as [<- | [<- | [<- | [<- | []]]]]; reflexivity. }
    by rewrite Hc.
Qed.

Lemma append_sol_nonempty (s : string) : s +:+ ".sol" <> EmptyString.
Proof. destruct s; discriminate. Qed.

(** X12: the [compile] command cannot write next to a bare file name.  When
    the chosen output path has no directory part - no [-o] and an input
    such as "token.zhs", or [-o token.sol] - and the input compiles, the
    command still prints "✗ 编译失败: 写入文件失败: ..." and calls
    [sys.exit(1)], and no file has been written. *)
Theorem compile_command_bare_file_name (input_file text : string)
    (output_file : option string) (verbose show_tokens show_ast : bool)
    (toks : list Token) (a : Program.t) (code : string)
    (con : list ConsoleCall) (w : World Token) :
  (truthy output_file = false /\ dirname input_file = EmptyString) \/
  (exists out, output_file = Some out /\ out <> EmptyString /\
               dirname out = EmptyString) ->
  fs w !! input_file = Some (File text) ->
  tokenize text = Ok toks -> parse toks = Ok a ->
  generate_solidity (Some a) = Ok code ->
  let r := run_compile_command input_file output_file verbose show_tokens
             show_ast (con, w) in
  fst r = Ok (SysExit 1) /\
  fst (snd r) =
    (con ++ [PrintText
               (newline +:+ "[bold red]✗ 编译失败:[/bold red] " +:+
                "写入文件失败: [Errno 2] No such file or directory: ''")
               (Some "red")])%list /\
  fs (snd (snd r)) = fs w.
Proof.
  intros Hbare Hin Ht Hp Hg r. subst r.
  assert (Hout : chosen_output input_file output_file <> EmptyString /\
                 dirname (chosen_output input_file output_file)
                 = EmptyString).
  { unfold chosen_output.
    destruct Hbare as [[Hno Hdir] | (out & -> & Hne & Hdir)].
    - rewrite Hno. split; [ apply append_sol_nonempty | ].
      by rewrite dirname_sol.
    - rewrite (truthy_Some _ Hne). done. }
  destruct Hout as [Hne Hdir].
  assert (Hrun : exists self2 lines,
            run_compile_file input_file
              (Some (chosen_output input_file output_file))
              (ChineseSolidityCompiler.__init__ (Some verbose), w)
            = (Raise (mk_exn CompilerError
                        "写入文件失败: [Errno 2] No such file or directory: ''"),
               (self2, mkWorld lines (fs w)
                         (calls w ++ [CallTokenize text; CallParse toks;
                                      CallGenerate (Some a)])))).
  { rewrite compile_file_unfold, (open_read_file _ _ _ Hin).
    match goal with
    | |- context [ChineseSolidityCompiler.compile _ _ _ ?t (?s, ?w1)] =>
        destruct (compile_success tokenize parse generate_solidity
                    t s w1 toks a code Ht Hp Hg) as [lines ->]
    end.
    rewrite (truthy_Some _ Hne). cbv zeta.
    change (default EmptyString
              (Some (chosen_output input_file output_file)))
      with (chosen_output input_file output_file).
    rewrite Hdir. simpl. eauto. }
  destruct Hrun as (self2 & lines & Hrun).
  rewrite (compile_command_fails _ _ _ _ _ _ _ _ _ _ Hrun eq_refl).
  done.
Qed.

Lemma open_read_raise_class (files : gmap string node) (path : string)
    (e : exn) :
  open_read files path = Raise e -> isinstance e CompilerError = false.
Proof.
  unfold open_read. destruct (files !! path) as [[t|]|];
    [ | | destruct (has_nul path);
          [ | destruct (existsb (is_file files) (ancestors path)) ] ];
    intros [= <-]; reflexivity.
Qed.

(** The [check] command when the input cannot be read. *)
Lemma check_command_unreadable (input_file : string)
    (con : list ConsoleCall) (w : World Token) (e0 : exn) :
  open_read (fs w) input_file = Raise e0 ->
  tag_free (exc_text e0) = true ->
  run_check_command input_file (con, w) =
  (Ok (SysExit 1),
   ((con ++ [PrintText (newline +:+ "[bold red]✗ 错误:[/bold red] "
                                +:+ exc_text e0) (Some "red")])%list, w)).
Proof.
  intros Hread Ht.
  destruct (printable_failure _ Ht) as (_ & _ & Herr).
  unfold check_command.
  rewrite (try_except_bind_raise _ _ _ (con, w) (con, w) e0)
    by (by rewrite <- Hread).
  cbn [select_handler]. rewrite (open_read_raise_class _ _ _ Hread).
  rewrite isinstance_Exception. by apply report_failure_prints.
Qed.

(** The [check] command when the input is read and [compile] raises. *)
Lemma check_command_fails (input_file text : string)
    (con : list ConsoleCall) (w w' : World Token) (compiler : Self)
    (e : exn) :
  open_read (fs w) input_file = Ok text ->
  run_compile text (ChineseSolidityCompiler.__init__ (Some false), w)
    = (Raise e, (compiler, w')) ->
  tag_free (exc_text e) = true ->
  run_check_command input_file (con, w) =
  (Ok (SysExit 1),
   ((con ++ [PrintText (newline +:+ "[bold red]✗ 语法错误:[/bold red] "
                                +:+ exc_text e) (Some "red")])%list, w')).
Proof.
  intros Hread Hrun Ht.
  destruct (printable_failure _ Ht) as (_ & Hsyn & _).
  pose proof (f_equal fst Hrun) as Hraise. cbn [fst] in Hraise.
  destruct (compile_raises_tagged tokenize parse generate_solidity
              _ _ _ _ Hraise) as (c & e1 & Hc & He).
  assert (Hinst : isinstance e CompilerError = true)
    by (subst e; apply (tagged_is_CompilerError c e1 Hc)).
  unfold check_command.
  rewrite (try_except_bind_ok _ _ _ (con, w) (con, w) text)
    by (by rewrite <- Hread).
  rewrite (try_except_bind_raise _ _ _ _ _ _
             (on_compiler_raise _ _ _ _ con _ _ Hrun)).
  cbn [select_handler]. rewrite Hinst. by apply report_failure_prints.
Qed.

(** The [check] command when the input is read and [compile] returns. *)
Lemma check_command_returns (input_file text : string)
    (con : list ConsoleCall) (w w' : World Token) (compiler : Self)
    (code : string) :
  open_read (fs w) input_file = Ok text ->
  run_compile text (ChineseSolidityCompiler.__init__ (Some false), w)
    = (Ok code, (compiler, w')) ->
  tag_free input_file = true ->
  run_check_command input_file (con, w) =
  (Ok Returned,
   ((con ++
     [PrintText (newline +:+ "[bold green]✓ 语法检查通过![/bold green]") None;
      PrintText ("文件: " +:+ input_file) None])%list, w')).
Proof.
  intros Hread Hrun Ht.
  destruct (printable_fixed None) as (_ & _ & _ & _ & Hok).
  unfold check_command.
  rewrite (try_except_bind_ok _ _ _ (con, w) (con, w) text)
    by (by rewrite <- Hread).
  rewrite (try_except_bind_ok _ _ _ _ _ _
             (on_compiler_ok _ _ _ _ con _ _ Hrun)).
  apply try_except_ok.
  apply (prints_bind _ _ tt Returned [_]);
    [ by apply prints_console_print | ].
  apply (prints_bind _ _ tt Returned [_] []);
    [ by apply prints_console_print, printable_plain | apply prints_ret ].
Qed.

(** Whatever the console does, the world the [check] command leaves is the
    one [compile] left, or the world it found when the input cannot be
    read. *)
Lemma check_command_world (input_file : string)
    (con : list ConsoleCall) (w : World Token) :
  snd (snd (run_check_command input_file (con, w))) =
  match open_read (fs w) input_file with
  | Ok text =>
      snd (snd (run_compile text
                  (ChineseSolidityCompiler.__init__ (Some false), w)))
  | Raise _ => w
  end.
Proof.
  assert (Hclauses :
    Forall (fun clause : ExcClass * (exn -> M (@CliSt Token) Exit) =>
              forall e, keeps_world (snd clause e))
      [(CompilerError,
        report_failure normalize handler_error
          "[bold red]✗ 语法错误:[/bold red] ");
       (Exception,
        report_failure normalize handler_error
          "[bold red]✗ 错误:[/bold red] ")]).
  { repeat constructor; intros e; apply keeps_world_report_failure. }
  unfold check_command.
  destruct (open_read (fs w) input_file) as [text|e0] eqn:Hread.
  - rewrite (try_except_bind_ok _ _ _ (con, w) (con, w) text)
      by (by rewrite <- Hread).
    destruct (run_compile text _) as [[code|e] [compiler w']] eqn:Hrun.
    + rewrite (try_except_bind_ok _ _ _ _ _ _
                 (on_compiler_ok _ _ _ _ con _ _ Hrun)).
      cbn [snd].
      refine (keeps_world_try_except _ _ _ Hclauses (con, w')).
      repeat (apply keeps_world_bind;
              [ apply keeps_world_console_print | intros _ ]).
      apply keeps_world_ret.
    + rewrite (try_except_bind_raise _ _ _ _ _ _
                 (on_compiler_raise _ _ _ _ con _ _ Hrun)).
      apply (keeps_world_select_handler _ _ Hclauses (con, w')).
  - rewrite (try_except_bind_raise _ _ _ (con, w) (con, w) e0)
      by (by rewrite <- Hread).
    apply (keeps_world_select_handler _ _ Hclauses (con, w)).
Qed.

(** X14: the [check] command never changes the file system and its
    compiler never prints a log line, whatever the console does.  When the
    texts it puts into its lines hold no markup tag it does not raise, and
    it returns exactly when the input can be read and all three stages
    return: a pipeline failure prints "✗ 语法错误:" with the text of the
    stage error, an input that cannot be read prints "✗ 错误:" with the
    text of the operating-system error; both end in [sys.exit(1)]. *)
Theorem check_command_outcome (input_file : string)
    (con : list ConsoleCall) (w : World Token) :
  let r := check_command normalize handler_error tokenize parse
             generate_solidity input_file (con, w) in
  fs (snd (snd r)) = fs w /\ stdout (snd (snd r)) = stdout w /\
  match open_read (fs w) input_file with
  | Raise e0 =>
      calls (snd (snd r)) = calls w /\
      (tag_free (exc_text e0) = true ->
       fst r = Ok (SysExit 1) /\
       fst (snd r) =
         (con ++ [PrintText (newline +:+ "[bold red]✗ 错误:[/bold red] "
                                     +:+ exc_text e0) (Some "red")])%list)
  | Ok text =>
      match fst (run_compile text
                   (ChineseSolidityCompiler.__init__ (Some false), w)) with
      | Ok _ =>
          tag_free input_file = true ->
          fst r = Ok Returned /\
          fst (snd r) =
            (con ++
             [PrintText (newline +:+ "[bold green]✓ 语法检查通过![/bold green]")
                None;
              PrintText ("文件: " +:+ input_file) None])%list
      | Raise e =>
          tag_free (exc_text e) = true ->
          fst r = Ok (SysExit 1) /\
          fst (snd r) =
            (con ++ [PrintText (newline +:+ "[bold red]✗ 语法错误:[/bold red] "
                                        +:+ exc_text e) (Some "red")])%list
      end
  end.
Proof.
  intros r. subst r. rewrite check_command_world.
  destruct (open_read (fs w) input_file) as [text|e0] eqn:Hread.
  - pose proof (compile_keeps_fs tokenize parse generate_solidity text
                  (ChineseSolidityCompiler.__init__ (Some false)) w) as Hfs.
    destruct (compile_stdout tokenize parse generate_solidity text
                (ChineseSolidityCompiler.__init__ (Some false)) w)
      as (msgs & Hout & _).
    simpl in Hout. rewrite app_nil_r in Hout.
    split; [ exact Hfs | split; [ exact Hout | ] ].
    destruct (run_compile text _) as [[code|e] [compiler w']] eqn:Hrun;
      cbn [fst snd] in *.
    + intros Ht. by rewrite (check_command_returns _ _ _ _ _ _ _ Hread Hrun Ht).
    + intros Ht. by rewrite (check_command_fails _ _ _ _ _ _ _ Hread Hrun Ht).
  - split; [ done | split; [ done | split; [ done | ] ] ].
    intros Ht. by rewrite (check_command_unreadable _ _ _ _ Hread Ht).
Qed.

(** X15: run without [-o] on a readable input that compiles, with paths
    and listed tokens that hold no markup tag, the [compile] command
    returns when the directory of the input can be made and the output
    file can be opened for writing: the generated code is then in the
    file with the same directory and root and the extension ".sol".  The
    input file is left alone unless its own extension is ".sol": then the
    output path is the input path, and the source has been overwritten by
    the generated code. *)
Theorem compile_command_writes_next_to_input
    (input_file text : string) (output_file : option string)
    (verbose show_tokens show_ast : bool)
    (toks : list Token) (a : Program.t) (code : string)
    (files1 files2 : gmap string node)
    (con : list ConsoleCall) (w : World Token) :
  let out := fst (splitext input_file) +:+ ".sol" in
  truthy output_file = false ->
  open_read (fs w) input_file = Ok text ->
  tokenize text = Ok toks -> parse toks = Ok a ->
  generate_solidity (Some a) = Ok code ->
  os_makedirs (fs w) (dirname input_file) = Ok files1 ->
  open_write files1 out code = Ok files2 ->
  tag_free input_file = true -> tag_free out = true ->
  (show_tokens = true ->
   Forall (fun token => tag_free (token_str token) = true) (take 20 toks)) ->
  let r := compile_command normalize handler_error tokenize parse
             generate_solidity token_str input_file output_file verbose
             show_tokens show_ast (con, w) in
  let files := fs (snd (snd r)) in
  fst r = Ok Returned /\
  dirname out = dirname input_file /\
  files !! out = Some (File code) /\
  (out <> input_file -> files !! input_file = Some (File text)) /\
  (snd (splitext input_file) = ".sol" ->
   out = input_file /\ files !! input_file = Some (File code)).
Proof.
  intros out Hno Hread Ht Hp Hg Hmk Hwr Hin Hout Htoks r files.
  subst files r.
  assert (Hchosen : chosen_output input_file output_file = out)
    by (unfold chosen_output; by rewrite Hno).
  assert (Hd : dirname out = dirname input_file) by apply dirname_sol.
  assert (Hfile : fs w !! input_file = Some (File text)).
  { unfold open_read in Hread.
    destruct (fs w !! input_file) as [[t|]|]; try discriminate;
      [ by injection Hread as -> | ].
    destruct (has_nul input_file); [ discriminate | ].
    by destruct (existsb _ _). }
  destruct (compile_file_success tokenize parse generate_solidity
              input_file out text toks a code
              (ChineseSolidityCompiler.__init__ (Some verbose)) w
              files1 files2 Hread Ht Hp Hg (append_sol_nonempty _))
    as (self2 & lines & Hrun & Hself); [ by rewrite Hd | done | ].
  rewrite <- Hchosen in Hrun, Hout.
  rewrite (compile_command_returns _ _ _ _ _ _ _ _ _ _ Hrun Hin Hout).
  2:{ intros Hshow. unfold tokens_tag_free. rewrite Hself. by apply Htoks. }
  cbn [fst snd fs]. apply open_write_ok in Hwr as ->.
  split; [ done | split; [ done | ] ].
  split; [ by rewrite lookup_insert_eq | ].
  split.
  - intros Hne. rewrite lookup_insert_ne by done.
    destruct (os_makedirs_adds _ _ _ Hmk input_file) as [-> | [Hnone _]];
      [ done | congruence ].
  - intros Hext.
    assert (Hsame : out = input_file).
    { subst out. rewrite <- Hext. apply splitext_join. }
    split; [ done | ].
    transitivity (<[out := File code]> files1 !! out);
      [ by rewrite Hsame | by rewrite lookup_insert_eq ].
Qed.

End CommandFacts.

(** X10: without [-o] the command writes next to its input: the output
    path is the input path with its extension cut off and ".sol" put in
    its place - root and extension together are the input path - and it
    has the same directory part as the input.  With [-o] it is the path
    given. *)
Theorem chosen_output_next_to_input
    (input_file : string) (output_file : option string) :
  (truthy output_file = false ->
   chosen_output input_file output_file
     = fst (splitext input_file) +:+ ".sol" /\
   fst (splitext input_file) +:+ snd (splitext input_file) = input_file /\
   dirname (chosen_output input_file output_file) = dirname input_file) /\
  (forall out, output_file = Some out -> out <> EmptyString ->
     chosen_output input_file output_file = out).
Proof.
  split.
  - intros Hno. unfold chosen_output. rewrite Hno.
    split; [ done | split; [ apply splitext_join | apply dirname_sol ] ].
  - intros out -> Hne. unfold chosen_output. by rewrite (truthy_Some _ Hne).
Qed.

(** ** The extra properties on the sample stages *)

Local Abbreviation sample_compile_file :=
  (ChineseSolidityCompiler.compile_file sample_tokenize sample_parse
     sample_generate).
Local Abbreviation sample_program :=
  (Program.init
     (Some [Contract.init (Some "甲") None None None None None None])
     None None).
Local Abbreviation sample_code :=
  (preamble +:+ "contract 甲 {}" +:+ newline).
Local Abbreviation sample_tokens := ["合约"; "甲"; "{"; "}"; "EOF"].

Lemma compile_file_raises_only_CompilerError_witness :
  let e := mk_exn LexerError "词法分析失败: unexpected character" in
  fst (sample_compile_file "bad.zhs" None (new_self, sample_world))
    = Raise e /\
  isinstance e CompilerError = true /\
  In (exc_class e) [CompilerError; LexerError; ParserError; CodeGenError].
Proof.
  split; [ reflexivity | ].
  apply (compile_file_raises_only_CompilerError sample_tokenize sample_parse
           sample_generate "bad.zhs" None new_self sample_world).
  reflexivity.
Defined.

Lemma compile_file_output_without_directory_witness :
  let r := sample_compile_file "token.zhs" (Some "token.sol")
             (new_self, sample_world) in
  dirname "token.sol" = EmptyString /\
  fst r = Raise (mk_exn CompilerError
                   "写入文件失败: [Errno 2] No such file or directory: ''") /\
  fs (snd (snd r)) = fs sample_world /\
  ChineseSolidityCompiler.get_solidity_code (fst (snd r)) = sample_code /\
  new_calls sample_world (snd (snd r)) =
    [CallTokenize "合约 甲 { }"; CallParse sample_tokens;
     CallGenerate (Some sample_program)].
Proof.
  split; [ reflexivity | ].
  apply (compile_file_output_without_directory sample_tokenize sample_parse
           sample_generate "token.zhs" "token.sol" "合约 甲 { }"
           sample_tokens sample_program sample_code new_self sample_world);
    first [ reflexivity | discriminate ].
Defined.


Lemma compile_file_without_output_witness :
  truthy (Some EmptyString) = false /\
  fs (snd (snd (sample_compile_file "token.zhs" (Some EmptyString)
                  (new_self, sample_world)))) = fs sample_world /\
  forall text, fs sample_world !! "token.zhs" = Some (File text) ->
    fst (sample_compile_file "token.zhs" (Some EmptyString)
           (new_self, sample_world)) =
    fst (sample_compile text (new_self, sample_world)).
Proof.
  split; [ reflexivity | ].
  apply (compile_file_without_output sample_tokenize sample_parse
           sample_generate "token.zhs" (Some EmptyString) new_self
           sample_world).
  reflexivity.
Defined.

Lemma compile_file_stage_failure_witness :
  let e := mk_exn LexerError "词法分析失败: unexpected character" in
  let r := sample_compile_file "bad.zhs" (Some "build/bad.sol")
             (new_self, sample_world) in
  fst (sample_compile "合约 ?" (new_self, sample_world)) = Raise e /\
  fst r = Raise e /\ fs (snd (snd r)) = fs sample_world /\
  exists c, In c [LexerError; ParserError; CodeGenError] /\
            exc_class e = c /\ categories_of e = [c].
Proof.
  split; [ reflexivity | ].
  apply (compile_file_stage_failure sample_tokenize sample_parse
           sample_generate "bad.zhs" "合约 ?" (Some "build/bad.sol")
           new_self sample_world); reflexivity.
Defined.

Lemma compile_file_unreadable_input_witness :
  let r := sample_compile_file "contracts" (Some "build/x.sol")
             (new_self, sample_world) in
  let e0 := mk_exn IsADirectoryError
              "[Errno 21] Is a directory: 'contracts'" in
  open_read (fs sample_world) "contracts" = Raise e0 /\
  fst r = Raise (mk_exn CompilerError
                   "读取文件失败: [Errno 21] Is a directory: 'contracts'") /\
  calls (snd (snd r)) = calls sample_world /\
  fs (snd (snd r)) = fs sample_world /\ fst (snd r) = new_self.
Proof.
  split; [ reflexivity | ].
  apply (compile_file_unreadable_input sample_tokenize sample_parse
           sample_generate "contracts" (Some "build/x.sol") new_self
           sample_world
           (mk_exn IsADirectoryError
              "[Errno 21] Is a directory: 'contracts'"));
    reflexivity.
Defined.

(** A path below a regular file is not "not found": the operating system
    says the file on the way is no directory, and [compile_file] reports
    that it could not read. *)
Example sample_compile_file_below_a_file :
  fst (sample_compile_file "token.zhs/x" None (new_self, sample_world)) =
  Raise (mk_exn CompilerError
           "读取文件失败: [Errno 20] Not a directory: 'token.zhs/x'").
Proof. reflexivity. Qed.

Lemma compile_file_prints_only_log_lines_witness :
  stdout (snd (snd (sample_compile_file "token.zhs" (Some "build/token.sol")
                      (new_self, sample_world)))) = stdout sample_world.
Proof.
  destruct (compile_file_prints_only_log_lines sample_tokenize sample_parse
              sample_generate "token.zhs" (Some "build/token.sol") new_self
              sample_world) as (new & Hout & _ & Hquiet).
  rewrite Hout, (Hquiet eq_refl). apply app_nil_r.
Defined.

Lemma failed_compile_keeps_earlier_results_witness :
  let e := mk_exn LexerError "词法分析失败: unexpected character" in
  let s1 := snd (sample_compile "合约 甲 { }" (new_self, empty_world)) in
  let self2 := fst (snd (sample_compile "?" s1)) in
  fst (sample_compile "?" s1) = Raise e /\
  ChineseSolidityCompiler.get_solidity_code self2 = sample_code /\
  ChineseSolidityCompiler.source_code self2 = "?" /\
  (exc_class e = LexerError ->
   ChineseSolidityCompiler.get_tokens self2 = sample_tokens /\
   ChineseSolidityCompiler.get_ast self2 = Some sample_program).
Proof.
  split; [ reflexivity | ].
  apply (failed_compile_keeps_earlier_results sample_tokenize sample_parse
           sample_generate "合约 甲 { }" "?" sample_tokens sample_program
           sample_code new_self empty_world); reflexivity.
Defined.

Lemma compile_again_changes_nothing_witness :
  let s1 := snd (sample_compile "合约 甲 { }" (new_self, empty_world)) in
  let s2 := snd (sample_compile "合约 甲 { }" s1) in
  fst (sample_compile "合约 甲 { }" (new_self, empty_world)) = Ok sample_code
  /\ fst (sample_compile "合约 甲 { }" s1) = Ok sample_code /\
  fst s2 = fst s1 /\
  ChineseSolidityCompiler.source_code (fst s1) = "合约 甲 { }" /\
  ChineseSolidityCompiler.get_solidity_code (fst s1) = sample_code /\
  ChineseSolidityCompiler.verbose (fst s1)
    = ChineseSolidityCompiler.verbose new_self.
Proof.
  split; [ reflexivity | ].
  apply (compile_again_changes_nothing sample_tokenize sample_parse
           sample_generate "合约 甲 { }" sample_code new_self empty_world).
  reflexivity.
Defined.

Lemma chosen_output_next_to_input_witness :
  chosen_output "contracts/token.zhs" None = "contracts/token.sol" /\
  splitext "contracts/token.zhs" = ("contracts/token", ".zhs") /\
  dirname (chosen_output "contracts/token.zhs" None)
    = dirname "contracts/token.zhs" /\
  chosen_output "contracts/token.zhs" (Some "out/t.sol") = "out/t.sol".
Proof.
  destruct (chosen_output_next_to_input "contracts/token.zhs" None)
    as [Hdefault _].
  destruct (Hdefault eq_refl) as (Hout & _ & Hdir).
  destruct (chosen_output_next_to_input "contracts/token.zhs"
              (Some "out/t.sol")) as [_ Hgiven].
  split; [ rewrite Hout; reflexivity | ].
  split; [ reflexivity | ].
  split; [ exact Hdir | ].
  apply (Hgiven "out/t.sol" eq_refl). discriminate.
Defined.

Lemma compile_command_bare_file_name_witness :
  let r := compile_command sample_normalize sample_handler_error
             sample_tokenize sample_parse sample_generate
             (fun token => token) "token.zhs" None false false false
             ([], sample_world) in
  dirname "token.zhs" = EmptyString /\
  fst r = Ok (SysExit 1) /\
  fst (snd r) =
    [PrintText
       (newline +:+ "[bold red]✗ 编译失败:[/bold red] " +:+
        "写入文件失败: [Errno 2] No such file or directory: ''")
       (Some "red")] /\
  fs (snd (snd r)) = fs sample_world.
Proof.
  split; [ reflexivity | ].
  apply (compile_command_bare_file_name sample_normalize
           sample_handler_error sample_tokenize sample_parse
           sample_generate (fun token => token) "token.zhs" "合约 甲 { }"
           None false false false sample_tokens sample_program sample_code
           [] sample_world);
    first [ reflexivity | left; split; reflexivity ].
Defined.

Lemma show_token_list_output_witness :
  let compiler :=
    ChineseSolidityCompiler.mk false EmptyString (replicate 22 "甲") None
      EmptyString in
  tag_free "甲" = true /\
  exists lines : list string,
    show_token_list sample_normalize sample_handler_error
      (fun token => token) compiler ([], empty_world) =
      (Ok tt,
       (PrintText (newline +:+ "[bold cyan]Token列表:[/bold cyan]") None ::
        ((fun l => PrintText l None) <$> lines), empty_world)) /\
    length lines = 21 /\
    lines !! 0%nat = Some "  1. 甲" /\
    lines !! 20%nat = Some "  ... 还有 2 个Token".
Proof.
  intros compiler. split; [ reflexivity | ].
  destruct (show_token_list_output sample_normalize sample_handler_error
              (fun token : string => token) compiler [] empty_world)
    as (lines & Hrun & Hlen & Hline & Hmore).
  { simpl. repeat constructor. }
  exists lines. split; [ exact Hrun | ].
  split; [ exact Hlen | ].
  split; [ apply (Hline 0%nat "甲"); [ lia | reflexivity ] | ].
  apply Hmore. simpl. lia.
Defined.

Lemma compile_command_outcome_witness :
  let r := compile_command sample_normalize sample_handler_error
             sample_tokenize sample_parse sample_generate
             (fun token => token) "contracts/token.zhs" None false true
             false ([], sample_world) in
  tag_free "contracts/token.zhs" = true /\
  tag_free (chosen_output "contracts/token.zhs" None) = true /\
  fst r = Ok Returned /\
  exists shown,
    fst (snd r) =
    (shown ++
     [PrintText (newline +:+ "[bold green]✓ 编译成功![/bold green]") None;
      PrintText "输入文件: contracts/token.zhs" None;
      PrintText "输出文件: contracts/token.sol" None;
      PrintText (newline +:+ "[bold cyan]生成的Solidity代码:[/bold cyan]")
        None;
      PrintPanel sample_code "solidity" "monokai" true "Solidity代码"
        "green"])%list.
Proof.
  split; [ reflexivity | split; [ reflexivity | ] ].
  destruct (compile_command_outcome sample_normalize sample_handler_error
              sample_tokenize sample_parse sample_generate
              (fun token : string => token) "contracts/token.zhs" None
              false true false [] sample_world) as [_ Hcase].
  vm_compute in Hcase.
  apply Hcase; [ reflexivity | reflexivity | ].
  intros _. repeat constructor.
Defined.

Lemma check_command_outcome_witness :
  let r := check_command sample_normalize sample_handler_error
             sample_tokenize sample_parse sample_generate "bad.zhs"
             ([], sample_world) in
  let text := "词法分析失败: unexpected character" in
  tag_free text = true /\
  fst r = Ok (SysExit 1) /\
  fst (snd r) =
    [PrintText (newline +:+ "[bold red]✗ 语法错误:[/bold red] " +:+ text)
       (Some "red")] /\
  fs (snd (snd r)) = fs sample_world /\
  stdout (snd (snd r)) = stdout sample_world.
Proof.
  split; [ reflexivity | ].
  destruct (check_command_outcome sample_normalize sample_handler_error
              sample_tokenize sample_parse sample_generate "bad.zhs" []
              sample_world) as (Hfs & Hout & Hcase).
  vm_compute in Hcase. destruct (Hcase eq_refl) as [Hexit Hcon].
  split; [ exact Hexit | split; [ exact Hcon | ] ].
  split; [ exact Hfs | exact Hout ].
Defined.

(** The command on an input in a directory of its own: it returns, and the
    code is in the file next to the input. *)
Example sample_compile_command :
  let r := compile_command sample_normalize sample_handler_error
             sample_tokenize sample_parse sample_generate
             (fun token => token) "token.zhs" (Some "build/token.sol")
             false false false ([], sample_world) in
  fst r = Ok Returned /\
  fs (snd (snd r)) !! "build/token.sol" = Some (File sample_code).
Proof. vm_compute. done. Qed.

Lemma compile_command_writes_next_to_input_witness :
  let r := compile_command sample_normalize sample_handler_error
             sample_tokenize sample_parse sample_generate
             (fun token => token) "contracts/token.zhs" None false false
             false ([], sample_world) in
  let files := fs (snd (snd r)) in
  let files2 := <["contracts/token.sol" := File sample_code]>
                  (fs sample_world) in
  dirname "contracts/token.zhs" = "contracts" /\
  fst (splitext "contracts/token.zhs") +:+ ".sol" = "contracts/token.sol" /\
  os_makedirs (fs sample_world) "contracts" = Ok (fs sample_world) /\
  open_write (fs sample_world) "contracts/token.sol" sample_code
    = Ok files2 /\
  fst r = Ok Returned /\
  files !! "contracts/token.sol" = Some (File sample_code) /\
  files !! "contracts/token.zhs" = Some (File "合约 甲 { }").
Proof.
  split; [ reflexivity | split; [ reflexivity | ] ].
  split; [ reflexivity | split; [ reflexivity | ] ].
  destruct (compile_command_writes_next_to_input sample_normalize
              sample_handler_error sample_tokenize
              sample_parse sample_generate (fun token : string => token)
              "contracts/token.zhs" "合约 甲 { }" None false false false
              sample_tokens sample_program sample_code
              (fs sample_world)
              (<["contracts/token.sol" := File sample_code]>
                 (fs sample_world))
              [] sample_world)
    as (Hret & _ & Hout & Hkeep & _);
    try first [ reflexivity | discriminate ].
  split; [ exact Hret | split; [ exact Hout | ] ].
  apply Hkeep. discriminate.
Defined.

(** The command overwrites a source whose extension is already ".sol". *)
Example sample_compile_command_overwrites :
  let w := mkWorld [] (<["contracts/old.sol" := File "合约 甲 { }"]> ∅) [] in
  let r := compile_command sample_normalize sample_handler_error
             sample_tokenize sample_parse sample_generate
             (fun token => token) "contracts/old.sol" None false false
             false ([], w) in
  fst r = Ok Returned /\
  fs (snd (snd r)) !! "contracts/old.sol" = Some (File sample_code).
Proof. vm_compute. done. Qed.

(** A path with a closing tag in it makes the console raise.  [check] on a
    readable, well-formed file named "[/]" prints the first line of its
    report; the second line raises MarkupError, and so does the line with
    which the [except Exception] clause then reports that error: the
    command ends with an exception. *)
Example sample_check_command_markup :
  let w := mkWorld [] (<["[/]" := File "合约 甲 { }"]> ∅) [] in
  let r := check_command sample_normalize sample_handler_error
             sample_tokenize sample_parse sample_generate "[/]" ([], w) in
  markup_error sample_normalize sample_handler_error "文件: [/]" =
    Some (mk_exn MarkupError
            "closing tag '[/]' at position 4 has nothing to close") /\
  fst r = Raise (mk_exn MarkupError
                   "closing tag '[/]' at position 41 has nothing to close")
  /\
  fst (snd r) =
    [PrintText (newline +:+ "[bold green]✓ 语法检查通过![/bold green]") None].
Proof. vm_compute. done. Qed.
